(** * OMIM converter: the bidirectional lookup service of [mapper.js]

    A shallow embedding of the class [MonarchOmimMapper] (file [mapper.js])
    and of the reverse-index builder that produces the second mapping file,
    followed by the properties of the lookup operations.

    Conventions of the embedding.
    - A JavaScript string is a Rocq [string]: a sequence of code units
      below 256.  On such strings [trim], [indexOf] and [replace] are those
      of [String.prototype].  [toUpperCase] is the one of
      [String.prototype] on ASCII strings, which is what the identifiers of
      both name spaces are; a statement that names the key of a forward
      lookup says so by [isAscii].
    - A JSON document is a [json] value; a JavaScript value is a [value]:
      [undefined], a JSON datum, or one of the built-in objects that every
      plain object inherits from [Object.prototype].
    - A method of the class is a function of the receiver [this] that
      returns a completion (normal or abrupt) and the receiver afterwards. *)

From Stdlib Require Import Ascii String ZArith.
From stdpp Require Import base option list strings gmap.

#[local] Set Warnings "-register-all".
#[local] Open Scope string_scope.

(** ** Strings: the methods of [String.prototype] used by the mapper *)

Module JSString.

(** The first [n] code units of [s], and [s] without them
    ([s.substring(0, n)] and [s.substring(n)]). *)
Fixpoint take (n : nat) (s : string) : string :=
  match n, s with
  | S n', String c s' => String c (take n' s')
  | _, _ => ""
  end.

Fixpoint drop (n : nat) (s : string) : string :=
  match n, s with
  | S n', String _ s' => drop n' s'
  | _, _ => s
  end.

(** [strip_prefix pat s] is [Some rest] when [s] is [pat] followed by
    [rest]: the test "[pat] occurs in [s] at offset 0". *)
Fixpoint strip_prefix (pat s : string) : option string :=
  match pat, s with
  | "", _ => Some s
  | String a pat', String b s' =>
      if decide (a = b) then strip_prefix pat' s' else None
  | String _ _, "" => None
  end.

(** [s.indexOf(pat)]: the offset of the leftmost occurrence of [pat] in
    [s]; [None] stands for [-1]. *)
Fixpoint indexOf (pat s : string) : option nat :=
  match strip_prefix pat s with
  | Some _ => Some 0
  | None =>
      match s with
      | "" => None
      | String _ s' => S <$> indexOf pat s'
      end
  end.

(** [s.replace(pat, rep)] for a string pattern and a replacement without
    [$] patterns: the leftmost occurrence of [pat], if any, is replaced;
    later occurrences are kept. *)
Definition replace (pat rep s : string) : string :=
  match indexOf pat s with
  | None => s
  | Some pos => take pos s +:+ rep +:+ drop (pos + String.length pat) s
  end.

(** White space and line terminators removed by [trim], among the code
    units below 256: TAB, LF, VT, FF, CR, SPACE and NO-BREAK SPACE
    (U+00A0). *)
Definition isWhiteSpace (c : ascii) : bool :=
  let n := N_of_ascii c in
  ((9 <=? n) && (n <=? 13) || (n =? 32) || (n =? 160))%N.

Fixpoint trimStart (s : string) : string :=
  match s with
  | "" => ""
  | String c s' => if isWhiteSpace c then trimStart s' else s
  end.

Fixpoint trimEnd (s : string) : string :=
  match s with
  | "" => ""
  | String c s' =>
      match trimEnd s' with
      | "" => if isWhiteSpace c then "" else String c ""
      | t => String c t
      end
  end.

(** [s.trim()] *)
Definition trim (s : string) : string := trimEnd (trimStart s).

Definition isLower (c : ascii) : bool :=
  let n := N_of_ascii c in ((97 <=? n) && (n <=? 122))%N.

Definition isUpper (c : ascii) : bool :=
  let n := N_of_ascii c in ((65 <=? n) && (n <=? 90))%N.

Definition toUpperCase_char (c : ascii) : ascii :=
  if isLower c then ascii_of_N (N_of_ascii c - 32) else c.

(** [s.toUpperCase()] for an ASCII string [s]: the letters a to z are
    mapped to A to Z and nothing else changes.  (Above 127 the method of
    [String.prototype] also maps accented letters, and maps some of them
    out of the range of code units of this model; this function leaves
    them alone.) *)
Fixpoint toUpperCase (s : string) : string :=
  match s with
  | "" => ""
  | String c s' => String (toUpperCase_char c) (toUpperCase s')
  end.

(** *** Vocabulary of the statements (not code of the mapper) *)

(** A string of ASCII code units (below 128). *)
Fixpoint isAscii (s : string) : bool :=
  match s with
  | "" => true
  | String c s' => (N_of_ascii c <? 128)%N && isAscii s'
  end.

(** NO-BREAK SPACE, U+00A0. *)
Definition nbsp : ascii := ascii_of_N 160.

(** A string made of white space only. *)
Fixpoint isBlank (s : string) : bool :=
  match s with
  | "" => true
  | String c s' => isWhiteSpace c && isBlank s'
  end.

(** The same letter in the other case; other characters unchanged. *)
Definition swapCase (c : ascii) : ascii :=
  if isLower c then ascii_of_N (N_of_ascii c - 32)
  else if isUpper c then ascii_of_N (N_of_ascii c + 32)
  else c.

(** [t] is a case variant of [s]: same length, and at every position the
    same character up to the case of a letter. *)
Fixpoint case_variant (s t : string) : bool :=
  match s, t with
  | "", "" => true
  | String c s', String d t' =>
      (bool_decide (d = c) || bool_decide (d = swapCase c))
      && case_variant s' t'
  | _, _ => false
  end.

(** Some character of the string is a lower-case letter. *)
Fixpoint hasLower (s : string) : bool :=
  match s with
  | "" => false
  | String c s' => isLower c || hasLower s'
  end.

(** A catalogue number as text: decimal digits only. *)
Definition isDigit (c : ascii) : bool :=
  let n := N_of_ascii c in ((48 <=? n) && (n <=? 57))%N.

Fixpoint allDigits (s : string) : bool :=
  match s with
  | "" => true
  | String c s' => isDigit c && allDigits s'
  end.

(** No character of the string is white space. *)
Fixpoint noWhiteSpace (s : string) : bool :=
  match s with
  | "" => true
  | String c s' => negb (isWhiteSpace c) && noWhiteSpace s'
  end.

End JSString.

(** ** Values *)

(** A parsed JSON document, as [JSON.parse] and [response.json()] build it.
    Numbers are kept as integers: the mapper only ever asks of a number
    whether it is zero. *)
Inductive json :=
| JNull
| JBool (b : bool)
| JNum (n : Z)
| JStr (s : string)
| JArr (elems : list json)
| JObj (props : gmap string json).

(** The values the lookups can receive or return: [undefined], JSON data,
    the built-in function objects found on [Object.prototype] (with the
    value of their [name] property), and [Object.prototype] itself. *)
Inductive value :=
| VUndefined
| VJson (j : json)
| VFun (name : string)
| VObjectPrototype.

Abbreviation VNull := (VJson JNull).
Abbreviation VStr s := (VJson (JStr s)).

(** The properties that a plain object inherits from [Object.prototype]
    (ECMAScript, including the legacy accessors of Annex B).  Reading
    [__proto__] on a plain object yields [Object.prototype]. *)
Definition Object_prototype : gmap string value :=
  list_to_map
    [ ("constructor", VFun "Object");
      ("hasOwnProperty", VFun "hasOwnProperty");
      ("isPrototypeOf", VFun "isPrototypeOf");
      ("propertyIsEnumerable", VFun "propertyIsEnumerable");
      ("toLocaleString", VFun "toLocaleString");
      ("toString", VFun "toString");
      ("valueOf", VFun "valueOf");
      ("__defineGetter__", VFun "__defineGetter__");
      ("__defineSetter__", VFun "__defineSetter__");
      ("__lookupGetter__", VFun "__lookupGetter__");
      ("__lookupSetter__", VFun "__lookupSetter__");
      ("__proto__", VObjectPrototype) ].

(** [o[key]] on a plain object [o] with own properties [props]: the own
    property if there is one, else the inherited one, else [undefined]. *)
Definition Get (props : gmap string json) (key : string) : value :=
  match props !! key with
  | Some j => VJson j
  | None => default VUndefined (Object_prototype !! key)
  end.

(** Truthiness ([ToBoolean]). *)
Definition ToBoolean (v : value) : bool :=
  match v with
  | VUndefined => false
  | VJson JNull => false
  | VJson (JBool b) => b
  | VJson (JNum n) => negb (n =? 0)%Z
  | VJson (JStr s) => negb (bool_decide (s = ""))
  | VJson (JArr _) | VJson (JObj _) => true
  | VFun _ | VObjectPrototype => true
  end.

(** [v || null] *)
Definition or_null (v : value) : value :=
  if ToBoolean v then v else VNull.

(** ** Completions and methods *)

Inductive error := TypeError | SyntaxError | NetworkError.

Inductive completion (A : Type) :=
| Normal (a : A)
| Throw (e : error).
Arguments Normal {A} a.
Arguments Throw {A} e.

Record MonarchOmimMapper := {
  monarchMappings : gmap string json;
  omimMappings : gmap string json
}.

(** A method body: run on the receiver, it completes and leaves the
    receiver in some state (assignments made before a throw persist). *)
Definition method (A : Type) : Type :=
  MonarchOmimMapper → completion A * MonarchOmimMapper.

#[export] Instance method_ret : MRet method :=
  λ A a this, (Normal a, this).

#[export] Instance method_bind : MBind method :=
  λ A B f m this,
    match m this with
    | (Normal a, this') => f a this'
    | (Throw e, this') => (Throw e, this')
    end.

Definition throw {A} (e : error) : method A :=
  λ this, (Throw e, this).

(** [try { body } catch (error) { handler }] *)
Definition try_catch {A} (body : method A) (handler : error → method A)
  : method A :=
  λ this,
    match body this with
    | (Normal a, this') => (Normal a, this')
    | (Throw e, this') => handler e this'
    end.

(** Awaiting a promise that is already settled. *)
Definition await {A} (p : completion A) : method A :=
  λ this, (p, this).

Definition read {A} (field : MonarchOmimMapper → A) : method A :=
  λ this, (Normal (field this), this).

Definition set_monarchMappings (t : gmap string json) : method unit :=
  λ this, (Normal (), {| monarchMappings := t;
                         omimMappings := omimMappings this |}).

Definition set_omimMappings (t : gmap string json) : method unit :=
  λ this, (Normal (), {| monarchMappings := monarchMappings this;
                         omimMappings := t |}).

(** The value a call returned, and the receiver after the call. *)
Definition returned {A} (r : completion A * MonarchOmimMapper) : completion A := r.1.
Definition receiver {A} (r : completion A * MonarchOmimMapper) : MonarchOmimMapper := r.2.

(** ** Method calls on an arbitrary value *)

(** [v.trim()] and [v.replace(pat, rep)] exist on strings.  On any other
    value of the model the property is [undefined] or a datum, and calling
    it raises a [TypeError]. *)
Definition call_trim (v : value) : method string :=
  match v with
  | VStr s => mret (JSString.trim s)
  | _ => throw TypeError
  end.

Definition call_replace (v : value) (pat rep : string) : method string :=
  match v with
  | VStr s => mret (JSString.replace pat rep s)
  | _ => throw TypeError
  end.

(** [data.name] *)
Definition get_name (data : value) : method value :=
  match data with
  | VUndefined | VJson JNull => throw TypeError
  | VJson (JObj props) => mret (Get props "name")
  | VJson (JBool _) | VJson (JNum _) | VJson (JStr _) | VJson (JArr _) =>
      mret VUndefined
  | VFun name => mret (VStr name)
  | VObjectPrototype => mret VUndefined
  end.

(** ** The class [MonarchOmimMapper] *)

(** What [fetch] resolves to: a response whose [json()] either yields the
    parsed document or rejects with a [SyntaxError].  The documents of this
    model are JSON objects, as both mapping files are; a body that parses
    to something else ([null], a number, an array) is not covered.  The
    mapper looks at nothing else of a response. *)
Record Response := { Response_json : completion (gmap string json) }.

(** [Promise.all([p, q])] on two settled promises: both values, or a
    rejection if there is one. *)
Definition Promise_all {A B} (p : completion A) (q : completion B)
  : completion (A * B) :=
  match p, q with
  | Normal a, Normal b => Normal (a, b)
  | Throw e, _ => Throw e
  | Normal _, Throw e => Throw e
  end.

(** [console.error(...)] writes to the console and has no other effect. *)
Definition console_error (e : error) : method unit := mret ().

(** The state set up by the constructor before [loadMappings] has run. *)
Definition constructor : MonarchOmimMapper :=
  {| monarchMappings := ∅; omimMappings := ∅ |}.

Section Loading.

(** The environment's [fetch], as a function of the requested location:
    a rejection, or a response. *)
Variable fetch : string → completion Response.

Definition loadMappings : method unit :=
  try_catch
    ('(monarchResponse, omimResponse) ←
       await (Promise_all (fetch "./data/monarch-omim.json")
                          (fetch "./data/omim-monarch.json"));
     m ← await (Response_json monarchResponse);
     set_monarchMappings m;;
     o ← await (Response_json omimResponse);
     set_omimMappings o)
    (λ error,
       console_error error;;
       set_monarchMappings ∅;;
       set_omimMappings ∅).

(** [new MonarchOmimMapper()], once the load started by the constructor
    has settled. *)
Definition loaded : MonarchOmimMapper := receiver (loadMappings constructor).

End Loading.

Definition getMonarchToOmim (monarchId : value) : method value :=
  if negb (ToBoolean monarchId) then mret VNull else
  trimmed ← call_trim monarchId;
  let cleanMonarchId := JSString.toUpperCase trimmed in
  mappings ← read monarchMappings;
  mret (or_null (Get mappings cleanMonarchId)).

Definition getOmimToMonarch (omimId : value) : method value :=
  if negb (ToBoolean omimId) then mret VNull else
  replaced ← call_replace omimId "OMIM:" "";
  let cleanOmimId := JSString.trim replaced in
  mappings ← read omimMappings;
  mret (or_null (Get mappings cleanOmimId)).

Definition getDiseaseName (monarchId : value) : method value :=
  data ← getMonarchToOmim monarchId;
  if ToBoolean data then get_name data else mret VNull.

Definition getOmimName (omimId : value) : method value :=
  data ← getOmimToMonarch omimId;
  if ToBoolean data then get_name data else mret VNull.

(** *** The records of the two mapping files *)

(** Modelled from the spec: the shape of the entries of the two mapping
    files (section 6 of the specification); the files themselves are not
    among the sources, and the mapper reads no field but [name]. *)
Definition forward_record (externalId name : string) : json :=
  JObj {[ "externalId" := JStr externalId; "name" := JStr name ]}.

Definition reverse_record (knowledgeBaseId name : string) : json :=
  JObj {[ "knowledgeBaseId" := JStr knowledgeBaseId; "name" := JStr name ]}.

(** The reverse table is the exact inverse of the forward table. *)
Definition exact_inverse (this : MonarchOmimMapper) : Prop :=
  ∀ k e n,
    monarchMappings this !! k = Some (forward_record e n) ↔
    omimMappings this !! e = Some (reverse_record k n).

(** The table a location yields: the fetch, then the parse of its body. *)
Definition fetched (fetch : string → completion Response) (url : string)
  : completion (gmap string json) :=
  match fetch url with
  | Normal response => Response_json response
  | Throw e => Throw e
  end.

Definition failed {A} (c : completion A) : bool :=
  match c with Normal _ => false | Throw _ => true end.

(** *** Sample data *)

(** One disease of the shipped tables, in both directions. *)
Definition sample_forward : gmap string json :=
  {[ "MONDO:0007739" := forward_record "154700" "Marfan syndrome" ]}.

Definition sample_reverse : gmap string json :=
  {[ "154700" := reverse_record "MONDO:0007739" "Marfan syndrome" ]}.

Definition sample : MonarchOmimMapper :=
  {| monarchMappings := sample_forward; omimMappings := sample_reverse |}.

(** An environment that serves the given documents; [None] stands for a
    request that is rejected. *)
Definition serve (forward reverse : option (completion (gmap string json)))
  : string → completion Response :=
  λ url,
    let answer :=
      if decide (url = "./data/monarch-omim.json") then forward
      else if decide (url = "./data/omim-monarch.json") then reverse
      else None in
    match answer with
    | Some body => Normal {| Response_json := body |}
    | None => Throw NetworkError
    end.

(** A pair of tables, inverse of each other, whose external ID was stored
    with its name-space prefix. *)
Definition prefixed_sample : MonarchOmimMapper :=
  {| monarchMappings :=
       {[ "MONDO:0007739" := forward_record "OMIM:154700" "Marfan syndrome" ]};
     omimMappings :=
       {[ "OMIM:154700" := reverse_record "MONDO:0007739" "Marfan syndrome" ]} |}.

(** The same with an external ID stored with a trailing blank, and with an
    empty external ID. *)
Definition padded_sample : MonarchOmimMapper :=
  {| monarchMappings :=
       {[ "MONDO:0007739" := forward_record "154700 " "Marfan syndrome" ]};
     omimMappings :=
       {[ "154700 " := reverse_record "MONDO:0007739" "Marfan syndrome" ]} |}.

Definition empty_id_sample : MonarchOmimMapper :=
  {| monarchMappings :=
       {[ "MONDO:0007739" := forward_record "" "Marfan syndrome" ]};
     omimMappings :=
       {[ "" := reverse_record "MONDO:0007739" "Marfan syndrome" ]} |}.

(** A reverse table with an entry under the empty key. *)
Definition empty_key_sample : MonarchOmimMapper :=
  {| monarchMappings := ∅;
     omimMappings := {[ "" := reverse_record "MONDO:0007739" "Marfan syndrome" ]} |}.

(** The forward document is served, the request for the reverse one is
    rejected; and the other way round. *)
Definition forward_only : string → completion Response :=
  serve (Some (Normal sample_forward)) None.

Definition reverse_only : string → completion Response :=
  serve (Some (Throw SyntaxError)) (Some (Normal sample_reverse)).

(** Neither document can be fetched. *)
Definition offline : string → completion Response := serve None None.

(** The names of the properties of [Object_prototype]. *)
Definition inherited_names : list string :=
  [ "constructor"; "hasOwnProperty"; "isPrototypeOf"; "propertyIsEnumerable";
    "toLocaleString"; "toString"; "valueOf"; "__defineGetter__";
    "__defineSetter__"; "__lookupGetter__"; "__lookupSetter__"; "__proto__" ].

(** A forward table whose only key is in lower case, and tables whose
    entries carry no [name]. *)
Definition lowercase_key_sample : MonarchOmimMapper :=
  {| monarchMappings :=
       {[ "mondo:0007739" := forward_record "154700" "Marfan syndrome" ]};
     omimMappings := sample_reverse |}.

Definition nameless_sample : MonarchOmimMapper :=
  {| monarchMappings :=
       {[ "MONDO:0007739" := JObj {[ "externalId" := JStr "154700" ]} ]};
     omimMappings := {[ "154700" := JStr "MONDO:0007739" ]} |}.

(** A reverse table with entries under ["154700"], ["x154700"],
    ["OMIM:154700"] and ["omim:154700"]. *)
Definition infix_sample : MonarchOmimMapper :=
  {| monarchMappings := ∅;
     omimMappings :=
       {[ "154700" := reverse_record "MONDO:0007739" "Marfan syndrome";
          "x154700" := reverse_record "MONDO:0000001" "X";
          "OMIM:154700" := reverse_record "MONDO:0000002" "Y";
          "omim:154700" := reverse_record "MONDO:0000003" "Z" ]} |}.

(** Both documents are served. *)
Definition online : string → completion Response :=
  serve (Some (Normal sample_forward)) (Some (Normal sample_reverse)).

(** ** The reverse-index builder *)

Module ReverseIndexBuilder.

Record forward_entry := { externalId : string; name : string }.
Record reverse_entry := { knowledgeBaseId : string; name' : string }.

(** Modelled from the spec: the reverse-index builder of
    [updateMapping.py], which is not among the sources.  The forward
    table is enumerated in its insertion order (a list of key and entry
    pairs); one pass inserts [e ↦ {k, n}] for each [k ↦ {e, n}], a later
    insertion under the same external ID replacing the earlier one. *)
Definition build_reverse (forward : list (string * forward_entry))
  : gmap string reverse_entry :=
  foldl (λ reverse kv,
           <[externalId kv.2 :=
               {| knowledgeBaseId := kv.1; name' := name kv.2 |}]> reverse)
        ∅ forward.

(** Modelled from the spec: the two persisted documents (section 6 of the
    specification), written by [updateMapping.py], which is not among the
    sources.  The forward table is a dictionary, so its keys are distinct;
    each entry becomes a JSON object with the two fields of its record. *)
Definition forward_json (forward : list (string * forward_entry))
  : gmap string json :=
  list_to_map
    ((λ kv, (kv.1, forward_record (externalId kv.2) (name kv.2))) <$> forward).

(** Modelled from the spec: the reverse document, entry by entry. *)
Definition reverse_json (reverse : gmap string reverse_entry)
  : gmap string json :=
  (λ r, reverse_record (knowledgeBaseId r) (name' r)) <$> reverse.

(** The mapper that has loaded the two documents of one build. *)
Definition built (forward : list (string * forward_entry))
  : MonarchOmimMapper :=
  {| monarchMappings := forward_json forward;
     omimMappings := reverse_json (build_reverse forward) |}.

(** Two knowledge-base entities with the same external ID. *)
Definition colliding : list (string * forward_entry) :=
  [ ("A", {| externalId := "1"; name := "X" |});
    ("B", {| externalId := "1"; name := "Y" |}) ].

End ReverseIndexBuilder.

(** * Properties *)

(** ** Strings *)

Module JSStringFacts.
Import JSString.

Ltac by_cases_on_char c :=
  destruct c as [[] [] [] [] [] [] [] []]; vm_compute; try done.

Lemma strip_prefix_app pat s : strip_prefix pat (pat +:+ s) = Some s.
Proof.
  induction pat as [|a pat IH]; simpl; [by destruct s|].
  by rewrite decide_True.
Qed.

Lemma indexOf_cons pat c s :
  indexOf pat (String c s) =
    match strip_prefix pat (String c s) with
    | Some _ => Some 0
    | None => S <$> indexOf pat s
    end.
Proof. reflexivity. Qed.

Lemma indexOf_app pat s : indexOf pat (pat +:+ s) = Some 0.
Proof.
  destruct pat as [|a pat]; [by destruct s|].
  change (String a pat +:+ s) with (String a (pat +:+ s)) at 1.
  rewrite indexOf_cons.
  change (String a (pat +:+ s)) with (String a pat +:+ s).
  by rewrite strip_prefix_app.
Qed.

Lemma take_app_length pre s : take (String.length pre) (pre +:+ s) = pre.
Proof.
  induction pre as [|c pre IH]; simpl; [by destruct s|]. by rewrite IH.
Qed.

Lemma drop_app_length pre n s :
  drop (String.length pre + n) (pre +:+ s) = drop n s.
Proof. induction pre as [|c pre IH]; simpl; done. Qed.

Lemma drop_0 s : drop 0 s = s.
Proof. by destruct s. Qed.

Lemma drop_length_app pat s : drop (String.length pat) (pat +:+ s) = s.
Proof.
  rewrite <-(Nat.add_0_r (String.length pat)), drop_app_length.
  apply drop_0.
Qed.

(** A pattern found at the very start is what [replace] replaces. *)
Lemma replace_prefix pat rep s : replace pat rep (pat +:+ s) = rep +:+ s.
Proof.
  unfold replace. rewrite indexOf_app. simpl.
  rewrite drop_length_app. by destruct (pat +:+ s).
Qed.

(** Without an occurrence of the pattern, [replace] is the identity. *)
Lemma replace_absent pat rep s : indexOf pat s = None → replace pat rep s = s.
Proof. unfold replace. by intros ->. Qed.

(** [replace] rewrites the leftmost occurrence and nothing else. *)
Lemma replace_first pat rep pre post :
  indexOf pat (pre +:+ pat +:+ post) = Some (String.length pre) →
  replace pat rep (pre +:+ pat +:+ post) = pre +:+ rep +:+ post.
Proof.
  unfold replace. intros ->.
  by rewrite take_app_length, drop_app_length, drop_length_app.
Qed.

(** A blank string holds no ["OMIM:"]. *)
Lemma indexOf_blank s : isBlank s = true → indexOf "OMIM:" s = None.
Proof.
  induction s as [|c s IH]; [done|].
  intros H. simpl in H. apply andb_prop in H as [Hc Hs].
  rewrite indexOf_cons. cbn [strip_prefix].
  rewrite decide_False by (intros <-; done). by rewrite (IH Hs).
Qed.

Lemma trimStart_blank s : isBlank s = true → trimStart s = "".
Proof.
  induction s as [|c s IH]; simpl; [done|].
  intros [Hc Hs]%andb_prop. rewrite Hc. auto.
Qed.

Lemma trim_blank s : isBlank s = true → trim s = "".
Proof. intros H. unfold trim. by rewrite trimStart_blank. Qed.

Lemma isWhiteSpace_toUpperCase_char c :
  isWhiteSpace (toUpperCase_char c) = isWhiteSpace c.
Proof. by_cases_on_char c. Qed.

Lemma toUpperCase_char_swapCase c :
  toUpperCase_char (swapCase c) = toUpperCase_char c.
Proof. by_cases_on_char c. Qed.

Lemma toUpperCase_empty s : toUpperCase s = "" ↔ s = "".
Proof. by destruct s. Qed.

Lemma toUpperCase_trimStart s :
  toUpperCase (trimStart s) = trimStart (toUpperCase s).
Proof.
  induction s as [|c s IH]; simpl; [done|].
  rewrite isWhiteSpace_toUpperCase_char.
  by destruct (isWhiteSpace c).
Qed.

Lemma toUpperCase_trimEnd s :
  toUpperCase (trimEnd s) = trimEnd (toUpperCase s).
Proof.
  induction s as [|c s IH]; simpl; [done|].
  rewrite <-IH, isWhiteSpace_toUpperCase_char.
  destruct (trimEnd s); simpl; [by destruct (isWhiteSpace c)|done].
Qed.

(** Trimming and upper-casing commute. *)
Lemma toUpperCase_trim s : toUpperCase (trim s) = trim (toUpperCase s).
Proof. unfold trim. by rewrite toUpperCase_trimEnd, toUpperCase_trimStart. Qed.

(** Case variants have the same upper-case form and are empty together. *)
Lemma case_variant_toUpperCase s t :
  case_variant s t = true → toUpperCase s = toUpperCase t.
Proof.
  revert t. induction s as [|c s IH]; intros [|d t]; simpl; try done.
  intros [Hc Hs]%andb_prop. rewrite (IH t Hs). f_equal.
  apply orb_prop in Hc as [->%bool_decide_eq_true| ->%bool_decide_eq_true];
    [done|]. by rewrite toUpperCase_char_swapCase.
Qed.

Lemma case_variant_empty s t :
  case_variant s t = true → (s = "" ↔ t = "").
Proof. destruct s, t; simpl; done. Qed.

(** Upper-casing leaves no lower-case letter behind. *)
Lemma isLower_toUpperCase_char c : isLower (toUpperCase_char c) = false.
Proof. by_cases_on_char c. Qed.

Lemma hasLower_toUpperCase s : hasLower (toUpperCase s) = false.
Proof.
  induction s as [|c s IH]; simpl; [done|].
  by rewrite isLower_toUpperCase_char, IH.
Qed.

(** Catalogue numbers are already in the form the lookup normalises to. *)
Lemma isDigit_not_space c : isDigit c = true → isWhiteSpace c = false.
Proof. by_cases_on_char c. Qed.

Lemma trimStart_digits s : allDigits s = true → trimStart s = s.
Proof.
  destruct s as [|c s]; simpl; [done|].
  intros [Hc _]%andb_prop. by rewrite isDigit_not_space.
Qed.

Lemma trimEnd_digits s : allDigits s = true → trimEnd s = s.
Proof.
  induction s as [|c s IH]; simpl; [done|].
  intros [Hc Hs]%andb_prop. rewrite (IH Hs), isDigit_not_space by done.
  by destruct s.
Qed.

Lemma trim_digits s : allDigits s = true → trim s = s.
Proof.
  intros H. unfold trim. by rewrite trimStart_digits, trimEnd_digits.
Qed.

Lemma strip_prefix_digits s :
  allDigits s = true → strip_prefix "OMIM:" s = None.
Proof.
  destruct s as [|c s]; simpl; [done|].
  intros [Hc _]%andb_prop. case_decide; [subst c; done|done].
Qed.

Lemma indexOf_digits s : allDigits s = true → indexOf "OMIM:" s = None.
Proof.
  induction s as [|c s IH]; [done|].
  intros H. pose proof (strip_prefix_digits _ H) as Hp.
  simpl in H. apply andb_prop in H as [_ Hs].
  by rewrite indexOf_cons, Hp, (IH Hs).
Qed.

End JSStringFacts.

(** ** Property lookup on plain objects *)

Section GetFacts.
Implicit Types (props : gmap string json) (key : string).

Lemma Get_own props key j : props !! key = Some j → Get props key = VJson j.
Proof. unfold Get. by intros ->. Qed.

Lemma Get_absent props key :
  props !! key = None → Object_prototype !! key = None →
  Get props key = VUndefined.
Proof. unfold Get. by intros -> ->. Qed.

Lemma Get_inherited props key v :
  props !! key = None → Object_prototype !! key = Some v →
  Get props key = v.
Proof. unfold Get. by intros -> ->. Qed.

(** Every name on [Object.prototype] contains a lower-case letter. *)
Lemma Object_prototype_hasLower key :
  is_Some (Object_prototype !! key) → JSString.hasLower key = true.
Proof.
  intros [v Hv]. unfold Object_prototype in Hv.
  apply elem_of_list_to_map_2 in Hv.
  repeat (apply elem_of_cons in Hv as [Hv|Hv]; [by inversion Hv|]).
  by apply elem_of_nil in Hv.
Qed.

(** Hence an upper-cased key never reaches an inherited property. *)
Lemma Object_prototype_toUpperCase s :
  Object_prototype !! JSString.toUpperCase s = None.
Proof.
  destruct (Object_prototype !! JSString.toUpperCase s) eqn:E; [|done].
  pose proof (Object_prototype_hasLower _ (mk_is_Some _ _ E)) as H.
  by rewrite JSStringFacts.hasLower_toUpperCase in H.
Qed.

Lemma Object_prototype_name : Object_prototype !! "name" = None.
Proof. reflexivity. Qed.

Lemma or_null_falsy v : ToBoolean v = false → or_null v = VNull.
Proof. unfold or_null. by intros ->. Qed.

Lemma or_null_truthy v : ToBoolean v = true → or_null v = v.
Proof. unfold or_null. by intros ->. Qed.

(** [v || null] is [null] or a truthy value. *)
Lemma or_null_cases v :
  or_null v = VNull ∨ ToBoolean (or_null v) = true.
Proof. unfold or_null. destruct (ToBoolean v) eqn:E; auto. Qed.

Lemma ToBoolean_reverse_record k n :
  ToBoolean (VJson (reverse_record k n)) = true.
Proof. done. Qed.

Lemma ToBoolean_forward_record e n :
  ToBoolean (VJson (forward_record e n)) = true.
Proof. done. Qed.

Lemma name_of_forward_record e n :
  Get {[ "externalId" := JStr e; "name" := JStr n ]} "name" = VStr n.
Proof. apply Get_own. by simplify_map_eq. Qed.

Lemma name_of_reverse_record k n :
  Get {[ "knowledgeBaseId" := JStr k; "name" := JStr n ]} "name" = VStr n.
Proof. apply Get_own. by simplify_map_eq. Qed.

End GetFacts.

(** ** What a plain object inherits *)

Lemma Object_prototype_names key :
  is_Some (Object_prototype !! key) ↔ key ∈ inherited_names.
Proof.
  split.
  - intros [v Hv]. unfold Object_prototype in Hv.
    apply elem_of_list_to_map_2 in Hv. unfold inherited_names.
    repeat (apply elem_of_cons in Hv as [Hv|Hv];
            [injection Hv as -> _; set_solver|]).
    by apply elem_of_nil in Hv.
  - unfold inherited_names. intros Hkey.
    repeat (apply elem_of_cons in Hkey as [->|Hkey]; [by eexists|]).
    by apply elem_of_nil in Hkey.
Qed.

(** Every inherited member is truthy: a function object, or the prototype
    itself. *)
Lemma Object_prototype_values key v :
  Object_prototype !! key = Some v →
  (v = VFun key ∨ (key = "constructor" ∧ v = VFun "Object")
   ∨ (key = "__proto__" ∧ v = VObjectPrototype)).
Proof.
  intros Hv. unfold Object_prototype in Hv.
  apply elem_of_list_to_map_2 in Hv.
  repeat (apply elem_of_cons in Hv as [Hv|Hv];
          [injection Hv as -> ->; auto|]).
  by apply elem_of_nil in Hv.
Qed.

Lemma or_null_inherited key :
  or_null (default VUndefined (Object_prototype !! key))
    = default VNull (Object_prototype !! key).
Proof.
  destruct (Object_prototype !! key) as [v|] eqn:Hv; [|done].
  by destruct (Object_prototype_values _ _ Hv) as [->|[[_ ->]|[_ ->]]].
Qed.

(** ** The equations of the four lookups *)

Section LookupEquations.
Variable this : MonarchOmimMapper.

Lemma getMonarchToOmim_falsy id :
  ToBoolean id = false → getMonarchToOmim id this = (Normal VNull, this).
Proof. unfold getMonarchToOmim. by intros ->. Qed.

Lemma getOmimToMonarch_falsy id :
  ToBoolean id = false → getOmimToMonarch id this = (Normal VNull, this).
Proof. unfold getOmimToMonarch. by intros ->. Qed.

(** On a non-empty string the forward lookup reads the table at the
    trimmed, upper-cased identifier. *)
Lemma getMonarchToOmim_key s :
  s ≠ "" →
  getMonarchToOmim (VStr s) this =
    (Normal (or_null (Get (monarchMappings this)
                          (JSString.toUpperCase (JSString.trim s)))), this).
Proof.
  intros Hs. unfold getMonarchToOmim. simpl.
  by rewrite bool_decide_eq_false_2.
Qed.

(** On a non-empty string the reverse lookup reads the table at the
    identifier with its first ["OMIM:"] removed, then trimmed. *)
Lemma getOmimToMonarch_key s :
  s ≠ "" →
  getOmimToMonarch (VStr s) this =
    (Normal (or_null (Get (omimMappings this)
               (JSString.trim (JSString.replace "OMIM:" "" s)))), this).
Proof.
  intros Hs. unfold getOmimToMonarch. simpl.
  by rewrite bool_decide_eq_false_2.
Qed.

(** The same, with the property read spelt out: the own entry under the
    key if there is one, else what a plain object inherits under it. *)
Lemma getOmimToMonarch_read s :
  s ≠ "" →
  let key := JSString.trim (JSString.replace "OMIM:" "" s) in
  getOmimToMonarch (VStr s) this =
    (Normal (match omimMappings this !! key with
             | Some j => or_null (VJson j)
             | None => default VNull (Object_prototype !! key)
             end), this).
Proof.
  intros Hs key. rewrite getOmimToMonarch_key by done. fold key.
  unfold Get. destruct (omimMappings this !! key); [done|].
  by rewrite or_null_inherited.
Qed.

(** A truthy identifier that is not a string has no [trim] or [replace]
    to call. *)
Lemma getMonarchToOmim_not_string id :
  ToBoolean id = true → (∀ s, id ≠ VStr s) →
  getMonarchToOmim id this = (Throw TypeError, this).
Proof.
  intros Hb Hs. unfold getMonarchToOmim. rewrite Hb. simpl.
  destruct id as [|[]| |]; try done. by destruct (Hs s).
Qed.

Lemma getOmimToMonarch_not_string id :
  ToBoolean id = true → (∀ s, id ≠ VStr s) →
  getOmimToMonarch id this = (Throw TypeError, this).
Proof.
  intros Hb Hs. unfold getOmimToMonarch. rewrite Hb. simpl.
  destruct id as [|[]| |]; try done. by destruct (Hs s).
Qed.

(** The lookups never write to the receiver. *)
Lemma getMonarchToOmim_receiver id :
  receiver (getMonarchToOmim id this) = this.
Proof.
  unfold getMonarchToOmim. destruct (ToBoolean id); [|done].
  by destruct id as [|[]| |].
Qed.

Lemma getOmimToMonarch_receiver id :
  receiver (getOmimToMonarch id this) = this.
Proof.
  unfold getOmimToMonarch. destruct (ToBoolean id); [|done].
  by destruct id as [|[]| |].
Qed.

(** What a lookup returns is [null] or truthy. *)
Lemma getMonarchToOmim_returned id data :
  returned (getMonarchToOmim id this) = Normal data →
  data = VNull ∨ ToBoolean data = true.
Proof.
  unfold getMonarchToOmim. destruct (ToBoolean id).
  - destruct id as [|[]| |]; try done. simpl.
    intros [= <-]. apply or_null_cases.
  - intros [= <-]. by left.
Qed.

Lemma getOmimToMonarch_returned id data :
  returned (getOmimToMonarch id this) = Normal data →
  data = VNull ∨ ToBoolean data = true.
Proof.
  unfold getOmimToMonarch. destruct (ToBoolean id).
  - destruct id as [|[]| |]; try done. simpl.
    intros [= <-]. apply or_null_cases.
  - intros [= <-]. by left.
Qed.

Lemma get_name_receiver data : receiver (get_name data this) = this.
Proof. by destruct data as [|[]| |]. Qed.

End LookupEquations.

(** ** Loading *)

Section LoadingFacts.
Variable fetch : string → completion Response.
Let forward := fetched fetch "./data/monarch-omim.json".
Let reverse := fetched fetch "./data/omim-monarch.json".

(** Both documents arrive and parse: both tables are installed. *)
Lemma loadMappings_success this m o :
  forward = Normal m → reverse = Normal o →
  loadMappings fetch this =
    (Normal (), {| monarchMappings := m; omimMappings := o |}).
Proof.
  subst forward reverse. unfold fetched, loadMappings, try_catch.
  cbn. unfold await, Promise_all.
  destruct (fetch "./data/monarch-omim.json") as [[r1]|]; [|done].
  destruct (fetch "./data/omim-monarch.json") as [[r2]|]; [|done].
  cbn. by intros -> ->.
Qed.

(** A request or a parse fails: the [catch] block leaves two empty
    tables, whatever was assigned before, and the failure goes no
    further. *)
Lemma loadMappings_fallback this :
  failed forward || failed reverse = true →
  loadMappings fetch this = (Normal (), constructor).
Proof.
  subst forward reverse. unfold fetched, loadMappings, try_catch.
  cbn. unfold await, Promise_all.
  destruct (fetch "./data/monarch-omim.json") as [[[m|]]|];
    destruct (fetch "./data/omim-monarch.json") as [[[o|]]|];
    cbn; done.
Qed.

(** [loadMappings] never completes abruptly. *)
Lemma loadMappings_returned this :
  returned (loadMappings fetch this) = Normal ().
Proof.
  destruct (failed forward || failed reverse) eqn:E.
  - by rewrite loadMappings_fallback.
  - apply orb_false_elim in E as [E1 E2].
    destruct forward as [m|] eqn:Hm; [|done].
    destruct reverse as [o|] eqn:Ho; [|done].
    by rewrite (loadMappings_success _ m o).
Qed.

End LoadingFacts.

(** ** The reverse-index builder *)

Section BuilderFacts.
Import ReverseIndexBuilder.
Implicit Types (forward : list (string * forward_entry)).

Lemma build_reverse_snoc forward k v :
  build_reverse (forward ++ [(k, v)]) =
    <[externalId v := {| knowledgeBaseId := k; name' := name v |}]>
      (build_reverse forward).
Proof. unfold build_reverse. by rewrite foldl_snoc. Qed.

(** Every reverse entry stems from a forward entry. *)
Lemma build_reverse_sound forward e r :
  build_reverse forward !! e = Some r →
  (knowledgeBaseId r, {| externalId := e; name := name' r |}) ∈ forward.
Proof.
  induction forward as [|[k v] forward IH] using rev_ind; [done|].
  rewrite build_reverse_snoc, elem_of_app, list_elem_of_singleton.
  intros [[<- <-]|[_ H]]%lookup_insert_Some.
  - right. by destruct v.
  - left. by apply IH.
Qed.

(** A forward entry whose external ID no later entry carries is the one
    the reverse table holds for that ID. *)
Lemma build_reverse_last before k v after :
  (∀ kv, kv ∈ after → externalId kv.2 ≠ externalId v) →
  build_reverse (before ++ (k, v) :: after) !! externalId v =
    Some {| knowledgeBaseId := k; name' := name v |}.
Proof.
  induction after as [|[k' v'] after IH] using rev_ind; intros Hlater.
  - rewrite build_reverse_snoc. apply lookup_insert_eq.
  - rewrite app_comm_cons, app_assoc, build_reverse_snoc.
    rewrite lookup_insert_ne.
    + apply IH. intros kv Hkv. apply Hlater. set_solver.
    + apply (Hlater (k', v')). set_solver.
Qed.

End BuilderFacts.

(** ** Misses *)

Section Misses.
Variable this : MonarchOmimMapper.

(** Forward direction: an identifier whose normal form is not a key of
    the table is a miss; no inherited name can interfere, since the key is
    upper-cased. *)
Lemma getMonarchToOmim_miss s :
  monarchMappings this !! JSString.toUpperCase (JSString.trim s) = None →
  getMonarchToOmim (VStr s) this = (Normal VNull, this).
Proof.
  intros Hmiss. destruct (decide (s = "")) as [->|Hs].
  - by apply getMonarchToOmim_falsy.
  - rewrite getMonarchToOmim_key by done.
    by rewrite Get_absent by auto using Object_prototype_toUpperCase.
Qed.

Lemma getDiseaseName_miss s :
  monarchMappings this !! JSString.toUpperCase (JSString.trim s) = None →
  getDiseaseName (VStr s) this = (Normal VNull, this).
Proof.
  intros Hmiss. unfold getDiseaseName, mbind, method_bind.
  by rewrite getMonarchToOmim_miss.
Qed.

(** Reverse direction: the same, provided the normal form is not the
    name of an inherited property either. *)
Lemma getOmimToMonarch_miss s :
  let key := JSString.trim (JSString.replace "OMIM:" "" s) in
  omimMappings this !! key = None → Object_prototype !! key = None →
  getOmimToMonarch (VStr s) this = (Normal VNull, this).
Proof.
  intros key Hmiss Hproto. destruct (decide (s = "")) as [->|Hs].
  - by apply getOmimToMonarch_falsy.
  - rewrite getOmimToMonarch_key by done. fold key.
    by rewrite Get_absent.
Qed.

Lemma getOmimName_miss s :
  let key := JSString.trim (JSString.replace "OMIM:" "" s) in
  omimMappings this !! key = None → Object_prototype !! key = None →
  getOmimName (VStr s) this = (Normal VNull, this).
Proof.
  intros key Hmiss Hproto. unfold getOmimName, mbind, method_bind.
  by rewrite getOmimToMonarch_miss.
Qed.

(** A blank string is looked up under the empty key. *)
Lemma getMonarchToOmim_blank s :
  JSString.isBlank s = true → monarchMappings this !! "" = None →
  getMonarchToOmim (VStr s) this = (Normal VNull, this).
Proof.
  intros Hb Hm. apply getMonarchToOmim_miss.
  by rewrite JSStringFacts.trim_blank.
Qed.

Lemma getOmimToMonarch_blank s :
  JSString.isBlank s = true → omimMappings this !! "" = None →
  getOmimToMonarch (VStr s) this = (Normal VNull, this).
Proof.
  intros Hb Hm. apply getOmimToMonarch_miss;
    rewrite JSStringFacts.replace_absent, JSStringFacts.trim_blank
      by auto using JSStringFacts.indexOf_blank; done.
Qed.

(** [undefined] and [null] are misses of all four lookups. *)
Lemma lookups_of_nothing id :
  id = VUndefined ∨ id = VNull →
  Forall (λ op : value → method value, op id this = (Normal VNull, this))
    [getMonarchToOmim; getOmimToMonarch; getDiseaseName; getOmimName].
Proof. intros [-> | ->]; repeat constructor. Qed.

End Misses.

(** ** Records *)

Lemma JObj_inj props props' : JObj props = JObj props' → props = props'.
Proof. by injection 1. Qed.

Lemma forward_record_inj e n e' n' :
  forward_record e n = forward_record e' n' → e = e' ∧ n = n'.
Proof.
  intros H%JObj_inj. split.
  - apply (f_equal (λ m : gmap string json, m !! "externalId")) in H.
    by simplify_map_eq.
  - apply (f_equal (λ m : gmap string json, m !! "name")) in H.
    by simplify_map_eq.
Qed.

Lemma reverse_record_inj k n k' n' :
  reverse_record k n = reverse_record k' n' → k = k' ∧ n = n'.
Proof.
  intros H%JObj_inj. split.
  - apply (f_equal (λ m : gmap string json, m !! "knowledgeBaseId")) in H.
    by simplify_map_eq.
  - apply (f_equal (λ m : gmap string json, m !! "name")) in H.
    by simplify_map_eq.
Qed.

(** A single forward entry and its mirror image are exact inverses. *)
Lemma exact_inverse_singleton k e n :
  exact_inverse {| monarchMappings := {[ k := forward_record e n ]};
                   omimMappings := {[ e := reverse_record k n ]} |}.
Proof.
  intros k' e' n'. simpl. rewrite !lookup_singleton_Some. split.
  - intros [<- [<- <-]%forward_record_inj]. done.
  - intros [<- [<- <-]%reverse_record_inj]. done.
Qed.

(** In exact inverses no external ID is shared by two forward entries. *)
Lemma exact_inverse_no_collision this k k' e n n' :
  exact_inverse this →
  monarchMappings this !! k = Some (forward_record e n) →
  monarchMappings this !! k' = Some (forward_record e n') →
  k = k'.
Proof.
  intros Hinv H1%Hinv H2%Hinv.
  assert (reverse_record k n = reverse_record k' n') as E by congruence.
  by apply reverse_record_inj in E as [-> _].
Qed.

(** ** The name accessors *)

Section Accessors.
Variable this : MonarchOmimMapper.

(** The body shared by [getDiseaseName] and [getOmimName], over any
    lookup that leaves the receiver alone and returns [null] or a truthy
    value. *)
Lemma accessor_returned (lookup : value → method value) id :
  receiver (lookup id this) = this →
  (∀ data, returned (lookup id this) = Normal data →
           data = VNull ∨ ToBoolean data = true) →
  returned ((data ← lookup id;
             if ToBoolean data then get_name data else mret VNull) this) =
    match returned (lookup id this) with
    | Normal VNull => Normal VNull
    | Normal data => returned (get_name data this)
    | Throw e => Throw e
    end.
Proof.
  unfold mbind, method_bind.
  destruct (lookup id this) as [[data|e] this'] eqn:E; simpl; [|done].
  intros -> Hcases. destruct (Hcases data eq_refl) as [->|Hb]; [done|].
  rewrite Hb. by destruct data as [|[]| |].
Qed.

Lemma accessor_receiver (lookup : value → method value) id :
  receiver (lookup id this) = this →
  receiver ((data ← lookup id;
             if ToBoolean data then get_name data else mret VNull) this)
    = this.
Proof.
  unfold mbind, method_bind.
  destruct (lookup id this) as [[data|e] this'] eqn:E; simpl; [|done].
  intros ->. destruct (ToBoolean data); [apply get_name_receiver|done].
Qed.

Lemma getDiseaseName_receiver id : receiver (getDiseaseName id this) = this.
Proof. apply accessor_receiver, getMonarchToOmim_receiver. Qed.

Lemma getOmimName_receiver id : receiver (getOmimName id this) = this.
Proof. apply accessor_receiver, getOmimToMonarch_receiver. Qed.

End Accessors.

(** A lookup that returns makes the accessor over it return. *)
Lemma accessor_normal this (lookup : value → method value) id :
  receiver (lookup id this) = this →
  (∀ data, returned (lookup id this) = Normal data →
           data = VNull ∨ ToBoolean data = true) →
  (∃ data, returned (lookup id this) = Normal data) →
  ∃ v, returned ((data ← lookup id;
                  if ToBoolean data then get_name data else mret VNull) this)
       = Normal v.
Proof.
  intros Hrec Hcases [data Hdata].
  rewrite accessor_returned, Hdata by done.
  destruct (Hcases data Hdata) as [->|Hb]; [by eexists|].
  destruct data as [|[]| |]; try done; by eexists.
Qed.

(** No string makes a lookup throw. *)
Lemma lookups_return_on_strings this s :
  Forall (λ op : value → method value,
            ∃ v, returned (op (VStr s) this) = Normal v)
    [getMonarchToOmim; getOmimToMonarch; getDiseaseName; getOmimName].
Proof.
  assert (∃ v, returned (getMonarchToOmim (VStr s) this) = Normal v) as Hf.
  { destruct (decide (s = "")) as [->|Hs]; [by eexists|].
    rewrite getMonarchToOmim_key by done. by eexists. }
  assert (∃ v, returned (getOmimToMonarch (VStr s) this) = Normal v) as Hr.
  { destruct (decide (s = "")) as [->|Hs]; [by eexists|].
    rewrite getOmimToMonarch_key by done. by eexists. }
  repeat constructor; [done|done|..].
  - apply accessor_normal;
      [apply getMonarchToOmim_receiver|apply getMonarchToOmim_returned|done].
  - apply accessor_normal;
      [apply getOmimToMonarch_receiver|apply getOmimToMonarch_returned|done].
Qed.

(** ** Hits of the reverse lookup *)

(** An external ID in normal form is looked up under itself. *)
Lemma getOmimToMonarch_hit this e j :
  e ≠ "" →
  JSString.indexOf "OMIM:" e = None →
  JSString.trim e = e →
  omimMappings this !! e = Some j →
  ToBoolean (VJson j) = true →
  getOmimToMonarch (VStr e) this = (Normal (VJson j), this).
Proof.
  intros He Hprefix Htrim Hj Hb.
  rewrite getOmimToMonarch_key by done.
  rewrite JSStringFacts.replace_absent, Htrim by done.
  by rewrite (Get_own _ _ _ Hj), or_null_truthy.
Qed.

(** ** From the builder to the lookup service *)

Section BuiltTables.
Import ReverseIndexBuilder.
Variable forward : list (string * forward_entry).
Hypothesis distinct_keys : NoDup forward.*1.
Hypothesis distinct_external_ids : NoDup ((λ kv, externalId kv.2) <$> forward).

(** Without collisions every forward entry has its reverse entry. *)
Lemma build_reverse_complete k v :
  (k, v) ∈ forward →
  build_reverse forward !! externalId v =
    Some {| knowledgeBaseId := k; name' := name v |}.
Proof.
  intros (before & after & Hsplit)%list_elem_of_split.
  rewrite Hsplit. apply build_reverse_last. intros kv Hkv Hsame.
  rewrite Hsplit, fmap_app, fmap_cons in distinct_external_ids.
  apply NoDup_app in distinct_external_ids as (_ & _ & Hnd).
  apply NoDup_cons in Hnd as [Hnotin _]. apply Hnotin.
  simpl. rewrite <-Hsame.
  by apply (list_elem_of_fmap_2 (λ kv, externalId kv.2)).
Qed.

Lemma forward_json_lookup k e n :
  forward_json forward !! k = Some (forward_record e n) ↔
  (k, {| externalId := e; name := n |}) ∈ forward.
Proof.
  unfold forward_json. rewrite <-elem_of_list_to_map.
  - rewrite list_elem_of_fmap. split.
    + intros ([k' [e' n']] & Heq & Hin).
      pose proof (f_equal fst Heq) as Hk. pose proof (f_equal snd Heq) as Hv.
      cbn [fst snd externalId name] in Hk, Hv.
      apply forward_record_inj in Hv as [-> ->]. by rewrite Hk.
    + intros Hin. by exists (k, {| externalId := e; name := n |}).
  - by rewrite <-list_fmap_compose.
Qed.

Lemma reverse_json_lookup (reverse : gmap string reverse_entry) e k n :
  reverse_json reverse !! e = Some (reverse_record k n) ↔
  reverse !! e = Some {| knowledgeBaseId := k; name' := n |}.
Proof.
  unfold reverse_json. rewrite lookup_fmap_Some. split.
  - intros ([k' n'] & Heq & Hr). cbn [knowledgeBaseId name'] in Heq.
    by apply reverse_record_inj in Heq as [<- <-].
  - intros Hr. by exists {| knowledgeBaseId := k; name' := n |}.
Qed.

(** The two documents of one build are exact inverses of each other. *)
Lemma built_exact_inverse : exact_inverse (built forward).
Proof.
  intros k e n. simpl. rewrite forward_json_lookup, reverse_json_lookup.
  split.
  - intros Hin. by apply (build_reverse_complete k _ Hin).
  - intros Hr. by apply build_reverse_sound in Hr.
Qed.

(** Build, persist, load, look up: the external ID of a forward entry, in
    normal form, leads back to the entry. *)
Lemma build_then_lookup k v :
  (k, v) ∈ forward →
  externalId v ≠ "" →
  JSString.indexOf "OMIM:" (externalId v) = None →
  JSString.trim (externalId v) = externalId v →
  getOmimToMonarch (VStr (externalId v)) (built forward) =
    (Normal (VJson (reverse_record k (name v))), built forward).
Proof.
  intros Hin He Hprefix Htrim. apply getOmimToMonarch_hit; try done.
  simpl. apply reverse_json_lookup. by apply build_reverse_complete.
Qed.

End BuiltTables.

(** * Main results *)

(** ** Round trip *)

(** C1, counterexample.  In each of [prefixed_sample], [padded_sample] and
    [empty_id_sample] the two tables are exact inverses of each other and
    no external ID is shared, yet looking up the external ID of the forward
    entry is a miss: the lookup strips the prefix, trims, and refuses the
    empty string before it reads the reverse table. *)
Lemma round_trip_counterexample :
  (exact_inverse prefixed_sample ∧
   monarchMappings prefixed_sample !! "MONDO:0007739"
     = Some (forward_record "OMIM:154700" "Marfan syndrome") ∧
   returned (getOmimToMonarch (VStr "OMIM:154700") prefixed_sample)
     ≠ Normal (VJson (reverse_record "MONDO:0007739" "Marfan syndrome"))) ∧
  (exact_inverse padded_sample ∧
   monarchMappings padded_sample !! "MONDO:0007739"
     = Some (forward_record "154700 " "Marfan syndrome") ∧
   returned (getOmimToMonarch (VStr "154700 ") padded_sample)
     ≠ Normal (VJson (reverse_record "MONDO:0007739" "Marfan syndrome"))) ∧
  (exact_inverse empty_id_sample ∧
   monarchMappings empty_id_sample !! "MONDO:0007739"
     = Some (forward_record "" "Marfan syndrome") ∧
   returned (getOmimToMonarch (VStr "") empty_id_sample)
     ≠ Normal (VJson (reverse_record "MONDO:0007739" "Marfan syndrome"))).
Proof.
  repeat split; try apply exact_inverse_singleton; vm_compute; discriminate.
Qed.

(** C1, as amended.  If the reverse table is the exact inverse of the
    forward table (so that no two forward entries share an external ID),
    then for every forward entry [k ↦ {e, n}] whose external ID [e] is
    non-empty, contains no ["OMIM:"] and has no white space at either end,
    [getOmimToMonarch(e)] returns the record [{knowledgeBaseId: k, name: n}]. *)
Theorem round_trip this k e n :
  exact_inverse this →
  monarchMappings this !! k = Some (forward_record e n) →
  e ≠ "" →
  JSString.indexOf "OMIM:" e = None →
  JSString.trim e = e →
  getOmimToMonarch (VStr e) this = (Normal (VJson (reverse_record k n)), this).
Proof.
  intros Hinv Hk He Hprefix Htrim.
  apply getOmimToMonarch_hit; try done. by apply Hinv.
Qed.

Lemma round_trip_witness :
  exact_inverse sample ∧
  getOmimToMonarch (VStr "154700") sample
    = (Normal (VJson (reverse_record "MONDO:0007739" "Marfan syndrome")), sample).
Proof.
  split; [apply exact_inverse_singleton|].
  apply (round_trip sample "MONDO:0007739" "154700" "Marfan syndrome");
    [apply exact_inverse_singleton|reflexivity|discriminate
    |reflexivity|reflexivity].
Defined.

(** ** Normalisation of knowledge-base identifiers *)

(** C4.  [getMonarchToOmim] returns the same result for a string and for
    any case variant of it, on every pair of tables. *)
Theorem getMonarchToOmim_case_insensitive this s t :
  JSString.case_variant s t = true →
  getMonarchToOmim (VStr s) this = getMonarchToOmim (VStr t) this.
Proof.
  intros Hst. destruct (decide (s = "")) as [->|Hs].
  - by destruct t.
  - assert (t ≠ "") as Ht
      by (intros Ht; by apply (JSStringFacts.case_variant_empty _ _ Hst) in Ht).
    rewrite !getMonarchToOmim_key by done.
    rewrite !JSStringFacts.toUpperCase_trim.
    by rewrite (JSStringFacts.case_variant_toUpperCase _ _ Hst).
Qed.

Lemma getMonarchToOmim_case_insensitive_witness :
  JSString.case_variant "mondo:0007739" "MONDO:0007739" = true ∧
  getMonarchToOmim (VStr "mondo:0007739") sample
    = getMonarchToOmim (VStr "MONDO:0007739") sample ∧
  returned (getMonarchToOmim (VStr "MONDO:0007739") sample)
    = Normal (VJson (forward_record "154700" "Marfan syndrome")).
Proof.
  split; [reflexivity|]. split; [|reflexivity].
  apply (getMonarchToOmim_case_insensitive sample
           "mondo:0007739" "MONDO:0007739").
  reflexivity.
Defined.

(** ** The name-space prefix of external identifiers *)

(** C5, counterexample.  With [d = "OMIM:154700"] the prefixed input is
    looked up under ["OMIM:154700"] and misses, while [d] itself is looked
    up under ["154700"] and hits.  With [d = ""] and an entry under the
    empty key, ["OMIM:"] hits that entry while [""] is refused by the guard. *)
Lemma prefix_stripping_counterexample :
  returned (getOmimToMonarch (VStr ("OMIM:" +:+ "OMIM:154700")) sample)
    ≠ returned (getOmimToMonarch (VStr "OMIM:154700") sample) ∧
  returned (getOmimToMonarch (VStr ("OMIM:" +:+ "")) empty_key_sample)
    ≠ returned (getOmimToMonarch (VStr "") empty_key_sample).
Proof. split; vm_compute; discriminate. Qed.

(** C5, as amended.  For every string [d] that does not itself contain
    ["OMIM:"], and that is non-empty unless the reverse table has no entry
    under the empty key, [getOmimToMonarch("OMIM:" + d)] returns the same
    result as [getOmimToMonarch(d)].  The token is matched with its case:
    an input that starts with ["omim:"] is looked up with that prefix kept,
    under the key [trim ("omim:" + d)]. *)
Theorem prefix_stripping this d :
  JSString.indexOf "OMIM:" d = None →
  d ≠ "" ∨ omimMappings this !! "" = None →
  getOmimToMonarch (VStr ("OMIM:" +:+ d)) this = getOmimToMonarch (VStr d) this
  ∧ getOmimToMonarch (VStr ("omim:" +:+ d)) this
    = (Normal
         (match omimMappings this !! JSString.trim ("omim:" +:+ d) with
          | Some j => or_null (VJson j)
          | None =>
              default VNull (Object_prototype !! JSString.trim ("omim:" +:+ d))
          end), this).
Proof.
  intros Hd Hempty. split.
  - rewrite getOmimToMonarch_key by done.
    rewrite JSStringFacts.replace_prefix. change ("" +:+ d) with d.
    destruct (decide (d = "")) as [->|Hne].
    + destruct Hempty as [|Hempty]; [done|].
      rewrite getOmimToMonarch_falsy by done.
      change (JSString.trim "") with "".
      by rewrite Get_absent.
    + rewrite (getOmimToMonarch_key _ d) by done.
      by rewrite JSStringFacts.replace_absent.
  - rewrite getOmimToMonarch_read by done.
    rewrite JSStringFacts.replace_absent; [done|].
    assert (∀ c s, c ≠ "O"%char →
              JSString.indexOf "OMIM:" s = None →
              JSString.indexOf "OMIM:" (String c s) = None) as Hstep.
    { intros c s Hc Hs. rewrite JSStringFacts.indexOf_cons.
      cbn [JSString.strip_prefix].
      rewrite decide_False by congruence. by rewrite Hs. }
    change ("omim:" +:+ d)
      with (String "o" (String "m" (String "i" (String "m" (String ":" d))))).
    by repeat (apply Hstep; [done|]).
Qed.

Lemma prefix_stripping_witness :
  JSString.indexOf "OMIM:" "154700" = None ∧
  getOmimToMonarch (VStr "OMIM:154700") infix_sample
    = getOmimToMonarch (VStr "154700") infix_sample ∧
  returned (getOmimToMonarch (VStr "154700") infix_sample)
    = Normal (VJson (reverse_record "MONDO:0007739" "Marfan syndrome")) ∧
  returned (getOmimToMonarch (VStr "omim:154700") infix_sample)
    = Normal (VJson (reverse_record "MONDO:0000003" "Z")).
Proof.
  split; [reflexivity|].
  destruct (prefix_stripping infix_sample "154700") as [Hsame Hcase];
    [reflexivity|left; discriminate|].
  split; [exact Hsame|]. split; [reflexivity|].
  change "omim:154700" with ("omim:" +:+ "154700"). rewrite Hcase. reflexivity.
Defined.

(** C10.  [getOmimToMonarch] removes the leftmost occurrence of ["OMIM:"]
    wherever it stands, and only that one: an input [pre ++ "OMIM:" ++ post]
    whose leftmost occurrence of the token is the one shown is looked up
    under the key [trim (pre ++ post)], and the result is the entry of the
    reverse table under that key (or what the table inherits under it). *)
Theorem first_occurrence_removed this pre post :
  JSString.indexOf "OMIM:" (pre +:+ "OMIM:" +:+ post)
    = Some (String.length pre) →
  getOmimToMonarch (VStr (pre +:+ "OMIM:" +:+ post)) this
    = (Normal
         (match omimMappings this !! JSString.trim (pre +:+ post) with
          | Some j => or_null (VJson j)
          | None =>
              default VNull (Object_prototype !! JSString.trim (pre +:+ post))
          end), this).
Proof.
  intros Hfirst.
  assert (pre +:+ "OMIM:" +:+ post ≠ "") as Hne.
  { intros E. rewrite E in Hfirst. by destruct pre. }
  rewrite getOmimToMonarch_read by done.
  rewrite JSStringFacts.replace_first by done.
  by change ("" +:+ post) with post.
Qed.

Lemma first_occurrence_removed_witness :
  (JSString.indexOf "OMIM:" ("x" +:+ "OMIM:" +:+ "154700") = Some 1 ∧
   getOmimToMonarch (VStr "xOMIM:154700") infix_sample
     = (Normal (VJson (reverse_record "MONDO:0000001" "X")), infix_sample)) ∧
  (JSString.indexOf "OMIM:" ("" +:+ "OMIM:" +:+ "OMIM:154700") = Some 0 ∧
   getOmimToMonarch (VStr "OMIM:OMIM:154700") infix_sample
     = (Normal (VJson (reverse_record "MONDO:0000002" "Y")), infix_sample)) ∧
  omimMappings infix_sample !! "154700"
    = Some (reverse_record "MONDO:0007739" "Marfan syndrome").
Proof.
  split; [|split]; [split; [reflexivity|]..|reflexivity].
  - apply (first_occurrence_removed infix_sample "x" "154700"). reflexivity.
  - apply (first_occurrence_removed infix_sample "" "OMIM:154700").
    reflexivity.
Defined.

(** ** Misses and inherited properties *)

(** C2, the failing input.  ["constructor"] is not a key of the reverse
    table, yet [getOmimToMonarch("constructor")] does not return [null]: the
    table is a plain object, and the property read finds the [constructor]
    that every plain object inherits.  [getOmimName] then returns that
    function's name.  (The forward lookups are not affected, see
    [getMonarchToOmim_miss]; the reverse lookups are not affected on any
    other miss, see [getOmimToMonarch_miss].) *)
Theorem getOmimToMonarch_inherited_constructor this :
  omimMappings this !! "constructor" = None →
  getOmimToMonarch (VStr "constructor") this = (Normal (VFun "Object"), this) ∧
  getOmimName (VStr "constructor") this = (Normal (VStr "Object"), this).
Proof.
  intros Hmiss.
  assert (getOmimToMonarch (VStr "constructor") this
            = (Normal (VFun "Object"), this)) as Hget.
  { rewrite getOmimToMonarch_key by done.
    change (JSString.trim (JSString.replace "OMIM:" "" "constructor"))
      with "constructor".
    by rewrite (Get_inherited _ _ (VFun "Object")). }
  split; [done|].
  unfold getOmimName, mbind, method_bind. by rewrite Hget.
Qed.

Lemma getOmimToMonarch_inherited_constructor_witness :
  omimMappings sample !! "constructor" = None ∧
  returned (getOmimToMonarch (VStr "constructor") sample) ≠ Normal VNull ∧
  returned (getOmimName (VStr "constructor") sample) ≠ Normal VNull.
Proof.
  split; [reflexivity|].
  destruct (getOmimToMonarch_inherited_constructor sample) as [-> ->];
    [reflexivity|].
  split; discriminate.
Defined.

(** ** Loading *)

(** C3, the failing input.  When a request or a parse fails, [loadMappings]
    completes normally and leaves two empty tables, as claimed; but a
    reverse lookup on the empty table still finds the properties that the
    empty object inherits, here [toString]. *)
Theorem fallback_tables_inherit_toString fetch :
  failed (fetched fetch "./data/monarch-omim.json")
  || failed (fetched fetch "./data/omim-monarch.json") = true →
  loadMappings fetch constructor = (Normal (), constructor) ∧
  returned (getOmimToMonarch (VStr "toString") (loaded fetch))
    = Normal (VFun "toString") ∧
  returned (getOmimName (VStr "toString") (loaded fetch))
    = Normal (VStr "toString").
Proof.
  intros Hfail. unfold loaded.
  rewrite (loadMappings_fallback fetch constructor Hfail).
  repeat split.
Qed.

Lemma fallback_tables_inherit_toString_witness :
  failed (fetched offline "./data/monarch-omim.json")
  || failed (fetched offline "./data/omim-monarch.json") = true ∧
  returned (getOmimToMonarch (VStr "toString") (loaded offline)) ≠ Normal VNull.
Proof.
  split; [reflexivity|].
  destruct (fallback_tables_inherit_toString offline) as (_ & -> & _);
    [reflexivity|discriminate].
Defined.

(** C9, counterexample.  The forward document loads and holds
    ["MONDO:0007739"]; the request for the reverse document is rejected.
    After the load the forward table is empty as well, and the forward
    lookup of the key that was present is a miss. *)
Lemma per_direction_degradation_counterexample :
  fetched forward_only "./data/monarch-omim.json" = Normal sample_forward ∧
  failed (fetched forward_only "./data/omim-monarch.json") = true ∧
  sample_forward !! "MONDO:0007739"
    = Some (forward_record "154700" "Marfan syndrome") ∧
  monarchMappings (loaded forward_only) = ∅ ∧
  returned (getMonarchToOmim (VStr "MONDO:0007739") (loaded forward_only))
    = Normal VNull.
Proof. repeat split. Qed.

(** C9, as amended.  When exactly one of the two persisted tables fails to
    fetch or parse at start-up, [loadMappings] completes normally and both
    in-memory tables are empty; every forward lookup is then a miss, also
    for the keys of the document that did load. *)
Theorem one_failure_empties_both fetch :
  xorb (failed (fetched fetch "./data/monarch-omim.json"))
       (failed (fetched fetch "./data/omim-monarch.json")) = true →
  returned (loadMappings fetch constructor) = Normal () ∧
  monarchMappings (loaded fetch) = ∅ ∧
  omimMappings (loaded fetch) = ∅ ∧
  ∀ s, returned (getMonarchToOmim (VStr s) (loaded fetch)) = Normal VNull.
Proof.
  intros Hone.
  assert (loadMappings fetch constructor = (Normal (), constructor)) as Hload.
  { apply loadMappings_fallback.
    destruct (failed (fetched fetch "./data/monarch-omim.json")),
             (failed (fetched fetch "./data/omim-monarch.json")); done. }
  unfold loaded. rewrite Hload. repeat split.
  intros s. by rewrite getMonarchToOmim_miss.
Qed.

Lemma one_failure_empties_both_witness :
  xorb (failed (fetched reverse_only "./data/monarch-omim.json"))
       (failed (fetched reverse_only "./data/omim-monarch.json")) = true ∧
  fetched reverse_only "./data/omim-monarch.json" = Normal sample_reverse ∧
  omimMappings (loaded reverse_only) = ∅.
Proof.
  split; [reflexivity|]. split; [reflexivity|].
  destruct (one_failure_empties_both reverse_only) as (_ & _ & H & _);
    [reflexivity|exact H].
Defined.

(** ** The reverse-index builder *)

(** C6, counterexample.  [A ↦ {1, X}] is an entry of the forward table
    [colliding], but the reverse table has no entry [1 ↦ {A, X}]: the later
    entry [B ↦ {1, Y}] has replaced it. *)
Lemma reverse_invariant_counterexample :
  ("A", {| ReverseIndexBuilder.externalId := "1";
           ReverseIndexBuilder.name := "X" |})
    ∈ ReverseIndexBuilder.colliding ∧
  ReverseIndexBuilder.build_reverse ReverseIndexBuilder.colliding !! "1"
    ≠ Some {| ReverseIndexBuilder.knowledgeBaseId := "A";
              ReverseIndexBuilder.name' := "X" |}.
Proof. split; [by left|]. vm_compute. discriminate. Qed.

(** C6, as amended.  Every entry [e ↦ {k, n}] of the reverse table stems
    from an entry [k ↦ {e, n}] of the forward table, and there are no
    others; every forward entry [k ↦ {e, n}] whose external ID is not
    carried by a forward entry inserted after it has its entry
    [e ↦ {k, n}] in the reverse table.  Hence, when two forward entries
    share an external ID, the reverse entry is the last-inserted one. *)
Theorem reverse_invariant (forward : list (string * ReverseIndexBuilder.forward_entry)) :
  (∀ e r,
     ReverseIndexBuilder.build_reverse forward !! e = Some r →
     (ReverseIndexBuilder.knowledgeBaseId r,
      {| ReverseIndexBuilder.externalId := e;
         ReverseIndexBuilder.name := ReverseIndexBuilder.name' r |}) ∈ forward) ∧
  (∀ before k v after,
     forward = (before ++ (k, v) :: after)%list →
     (∀ kv, kv ∈ after →
        ReverseIndexBuilder.externalId kv.2 ≠ ReverseIndexBuilder.externalId v) →
     ReverseIndexBuilder.build_reverse forward !! ReverseIndexBuilder.externalId v
       = Some {| ReverseIndexBuilder.knowledgeBaseId := k;
                 ReverseIndexBuilder.name' := ReverseIndexBuilder.name v |}).
Proof.
  split.
  - apply build_reverse_sound.
  - intros before k v after -> Hlater. by apply build_reverse_last.
Qed.

Lemma reverse_invariant_witness :
  ReverseIndexBuilder.build_reverse ReverseIndexBuilder.colliding !! "1"
    = Some {| ReverseIndexBuilder.knowledgeBaseId := "B";
              ReverseIndexBuilder.name' := "Y" |} ∧
  ("B", {| ReverseIndexBuilder.externalId := "1";
           ReverseIndexBuilder.name := "Y" |})
    ∈ ReverseIndexBuilder.colliding.
Proof.
  destruct (reverse_invariant ReverseIndexBuilder.colliding) as [Hsound Hlast].
  split.
  - apply (Hlast [("A", {| ReverseIndexBuilder.externalId := "1";
                           ReverseIndexBuilder.name := "X" |})]
                 "B" {| ReverseIndexBuilder.externalId := "1";
                        ReverseIndexBuilder.name := "Y" |} []);
      [reflexivity|]. intros kv Hkv. by apply elem_of_nil in Hkv.
  - apply (Hsound "1" {| ReverseIndexBuilder.knowledgeBaseId := "B";
                         ReverseIndexBuilder.name' := "Y" |}).
    reflexivity.
Defined.

(** ** The name accessors compose *)

(** C7.  [getDiseaseName(id)] is [null] when [getMonarchToOmim(id)] misses
    and the [name] property of what it returns otherwise (it throws when the
    lookup throws); in particular it is the [name] field of the record
    returned.  Likewise [getOmimName] over [getOmimToMonarch]. *)
Theorem name_accessors_compose this id :
  returned (getDiseaseName id this) =
    match returned (getMonarchToOmim id this) with
    | Normal VNull => Normal VNull
    | Normal data => returned (get_name data this)
    | Throw e => Throw e
    end ∧
  returned (getOmimName id this) =
    match returned (getOmimToMonarch id this) with
    | Normal VNull => Normal VNull
    | Normal data => returned (get_name data this)
    | Throw e => Throw e
    end ∧
  (∀ e n,
     returned (getMonarchToOmim id this) = Normal (VJson (forward_record e n)) →
     returned (getDiseaseName id this) = Normal (VStr n)) ∧
  (∀ k n,
     returned (getOmimToMonarch id this) = Normal (VJson (reverse_record k n)) →
     returned (getOmimName id this) = Normal (VStr n)).
Proof.
  assert (returned (getDiseaseName id this) =
            match returned (getMonarchToOmim id this) with
            | Normal VNull => Normal VNull
            | Normal data => returned (get_name data this)
            | Throw e => Throw e
            end) as Hforward.
  { apply accessor_returned;
      [apply getMonarchToOmim_receiver|apply getMonarchToOmim_returned]. }
  assert (returned (getOmimName id this) =
            match returned (getOmimToMonarch id this) with
            | Normal VNull => Normal VNull
            | Normal data => returned (get_name data this)
            | Throw e => Throw e
            end) as Hreverse.
  { apply accessor_returned;
      [apply getOmimToMonarch_receiver|apply getOmimToMonarch_returned]. }
  repeat split; [done|done|..].
  - intros e n Hrecord. rewrite Hforward, Hrecord. unfold forward_record.
    cbn [get_name returned mret method_ret fst].
    by rewrite name_of_forward_record.
  - intros k n Hrecord. rewrite Hreverse, Hrecord. unfold reverse_record.
    cbn [get_name returned mret method_ret fst].
    by rewrite name_of_reverse_record.
Qed.

Lemma name_accessors_compose_witness :
  returned (getMonarchToOmim (VStr "MONDO:0007739") sample)
    = Normal (VJson (forward_record "154700" "Marfan syndrome")) ∧
  returned (getDiseaseName (VStr "MONDO:0007739") sample)
    = Normal (VStr "Marfan syndrome") ∧
  returned (getOmimToMonarch (VStr "OMIM:154700") sample)
    = Normal (VJson (reverse_record "MONDO:0007739" "Marfan syndrome")) ∧
  returned (getOmimName (VStr "OMIM:154700") sample)
    = Normal (VStr "Marfan syndrome").
Proof.
  destruct (name_accessors_compose sample (VStr "MONDO:0007739"))
    as (_ & _ & Hforward & _).
  destruct (name_accessors_compose sample (VStr "OMIM:154700"))
    as (_ & _ & _ & Hreverse).
  split; [reflexivity|]. split.
  - apply (Hforward "154700" "Marfan syndrome"). reflexivity.
  - split; [reflexivity|].
    apply (Hreverse "MONDO:0007739" "Marfan syndrome"). reflexivity.
Defined.

(** ** Purity *)

(** C8.  Each of the four lookups leaves the receiver, hence both tables,
    as it found it, and a second call with the same argument returns what
    the first returned. *)
Theorem lookups_are_pure this id :
  Forall (λ op : value → method value,
            receiver (op id this) = this ∧
            returned (op id (receiver (op id this))) = returned (op id this))
    [getMonarchToOmim; getOmimToMonarch; getDiseaseName; getOmimName].
Proof.
  repeat constructor.
  - apply getMonarchToOmim_receiver.
  - by rewrite getMonarchToOmim_receiver.
  - apply getOmimToMonarch_receiver.
  - by rewrite getOmimToMonarch_receiver.
  - apply getDiseaseName_receiver.
  - by rewrite getDiseaseName_receiver.
  - apply getOmimName_receiver.
  - by rewrite getOmimName_receiver.
Qed.

(** * Further properties of the mapper *)

(** ** Strings: padding and normal forms *)

Module JSStringPadding.
Import JSString JSStringFacts.

Lemma append_assoc (a b c : string) : (a +:+ b) +:+ c = a +:+ (b +:+ c).
Proof.
  induction a as [|x a IH]; [done|].
  change (String x ((a +:+ b) +:+ c) = String x (a +:+ (b +:+ c))).
  by f_equal.
Qed.

Lemma append_empty_r (a : string) : a +:+ "" = a.
Proof.
  induction a as [|x a IH]; [done|].
  change (String x (a +:+ "") = String x a). by f_equal.
Qed.

Lemma append_nonempty a s b : s ≠ "" → a +:+ s +:+ b ≠ "".
Proof. destruct a, s; done. Qed.

Lemma strip_prefix_Some pat s rest :
  strip_prefix pat s = Some rest → s = pat +:+ rest.
Proof.
  revert s. induction pat as [|p pat IH]; intros s; simpl.
  - by intros [= ->].
  - destruct s as [|c s]; [done|]. case_decide; [|done].
    intros Hrest%IH. by subst.
Qed.

(** [replace], one character at a time. *)
Lemma replace_cons pat rep c s :
  replace pat rep (String c s) =
    match strip_prefix pat (String c s) with
    | Some rest => rep +:+ rest
    | None => String c (replace pat rep s)
    end.
Proof.
  unfold replace. rewrite indexOf_cons.
  destruct (strip_prefix pat (String c s)) as [rest|] eqn:E.
  - apply strip_prefix_Some in E. rewrite E.
    change (0 + String.length pat) with (String.length pat).
    rewrite drop_length_app. by destruct (pat +:+ rest).
  - by destruct (indexOf pat s).
Qed.

Lemma replace_empty pat rep : pat ≠ "" → replace pat rep "" = "".
Proof. by destruct pat. Qed.

Lemma strip_prefix_space pat c s :
  noWhiteSpace pat = true → pat ≠ "" → isWhiteSpace c = true →
  strip_prefix pat (String c s) = None.
Proof.
  destruct pat as [|p pat]; [done|]. simpl.
  intros [Hp _]%andb_prop _ Hc. case_decide; [|done].
  subst. by rewrite Hc in Hp.
Qed.

Lemma strip_prefix_blank_suffix pat s b :
  noWhiteSpace pat = true → isBlank b = true →
  strip_prefix pat (s +:+ b) = (λ rest, rest +:+ b) <$> strip_prefix pat s.
Proof.
  revert s. induction pat as [|p pat IH]; intros s Hpat Hb; [done|].
  simpl in Hpat. apply andb_prop in Hpat as [Hp Hpat].
  destruct s as [|c s].
  - change ("" +:+ b) with b.
    destruct b as [|w b]; [done|]. simpl in Hb.
    apply andb_prop in Hb as [Hw _]. simpl. case_decide; [|done].
    subst. by rewrite Hw in Hp.
  - change (String c s +:+ b) with (String c (s +:+ b)). simpl.
    case_decide; [|done]. by apply IH.
Qed.

Lemma replace_blank pat rep b :
  noWhiteSpace pat = true → pat ≠ "" → isBlank b = true →
  replace pat rep b = b.
Proof.
  intros Hpat Hne. induction b as [|w b IH]; intros Hb.
  - by apply replace_empty.
  - simpl in Hb. apply andb_prop in Hb as [Hw Hb].
    by rewrite replace_cons, strip_prefix_space, IH.
Qed.

(** Blank padding passes through [replace] untouched. *)
Lemma replace_blank_prefix pat rep a s :
  noWhiteSpace pat = true → pat ≠ "" → isBlank a = true →
  replace pat rep (a +:+ s) = a +:+ replace pat rep s.
Proof.
  intros Hpat Hne. induction a as [|w a IH]; intros Ha; [done|].
  simpl in Ha. apply andb_prop in Ha as [Hw Ha].
  change (String w a +:+ s) with (String w (a +:+ s)).
  rewrite replace_cons, strip_prefix_space, IH by done. done.
Qed.

Lemma replace_blank_suffix pat rep s b :
  noWhiteSpace pat = true → pat ≠ "" → isBlank b = true →
  replace pat rep (s +:+ b) = replace pat rep s +:+ b.
Proof.
  intros Hpat Hne Hb. induction s as [|c s IH].
  - rewrite replace_empty by done. by apply replace_blank.
  - change (String c s +:+ b) with (String c (s +:+ b)).
    rewrite !replace_cons.
    change (String c (s +:+ b)) with (String c s +:+ b).
    rewrite strip_prefix_blank_suffix by done.
    destruct (strip_prefix pat (String c s)) as [rest|]; simpl.
    + by rewrite append_assoc.
    + by rewrite IH.
Qed.

Lemma trimStart_blank_prefix a s :
  isBlank a = true → trimStart (a +:+ s) = trimStart s.
Proof.
  induction a as [|w a IH]; intros Ha; [done|].
  simpl in Ha. apply andb_prop in Ha as [Hw Ha]. simpl. rewrite Hw. auto.
Qed.

Lemma trimEnd_blank b : isBlank b = true → trimEnd b = "".
Proof.
  induction b as [|w b IH]; intros Hb; [done|].
  simpl in Hb. apply andb_prop in Hb as [Hw Hb]. simpl.
  by rewrite IH, Hw.
Qed.

Lemma trimEnd_blank_suffix s b :
  isBlank b = true → trimEnd (s +:+ b) = trimEnd s.
Proof.
  intros Hb. induction s as [|c s IH]; simpl.
  - by apply trimEnd_blank.
  - by rewrite IH.
Qed.

Lemma trim_blank_suffix s b : isBlank b = true → trim (s +:+ b) = trim s.
Proof.
  intros Hb. unfold trim. induction s as [|c s IH].
  - simpl. by rewrite trimStart_blank.
  - change (String c s +:+ b) with (String c (s +:+ b)).
    cbn [trimStart]. destruct (isWhiteSpace c); [done|].
    change (String c (s +:+ b)) with (String c s +:+ b).
    by apply trimEnd_blank_suffix.
Qed.

(** Blank padding is what [trim] removes. *)
Lemma trim_padded a s b :
  isBlank a = true → isBlank b = true → trim (a +:+ s +:+ b) = trim s.
Proof.
  intros Ha Hb. unfold trim at 1. rewrite trimStart_blank_prefix by done.
  by apply trim_blank_suffix.
Qed.

Lemma trimEnd_idempotent s : trimEnd (trimEnd s) = trimEnd s.
Proof.
  induction s as [|c s IH]; [done|]. simpl.
  destruct (trimEnd s) as [|d t] eqn:E.
  - destruct (isWhiteSpace c) eqn:Hc; simpl; [done|]. by rewrite Hc.
  - simpl. simpl in IH. by rewrite IH.
Qed.

Lemma trimStart_trim s : trimStart (trim s) = trim s.
Proof.
  unfold trim. induction s as [|c s IH]; [done|]. simpl.
  destruct (isWhiteSpace c) eqn:Hc; [done|]. simpl. rewrite Hc.
  destruct (trimEnd s); simpl; by rewrite Hc.
Qed.

(** [trim] and [toUpperCase] are idempotent. *)
Lemma trim_idempotent s : trim (trim s) = trim s.
Proof.
  unfold trim at 1. rewrite trimStart_trim. unfold trim.
  apply trimEnd_idempotent.
Qed.

Lemma toUpperCase_char_idempotent c :
  toUpperCase_char (toUpperCase_char c) = toUpperCase_char c.
Proof. by_cases_on_char c. Qed.

Lemma toUpperCase_idempotent s : toUpperCase (toUpperCase s) = toUpperCase s.
Proof.
  induction s as [|c s IH]; simpl; [done|].
  by rewrite toUpperCase_char_idempotent, IH.
Qed.

(** The key of a forward lookup is its own key. *)
Lemma forward_key_idempotent s :
  toUpperCase (trim (toUpperCase (trim s))) = toUpperCase (trim s).
Proof.
  by rewrite <-toUpperCase_trim, toUpperCase_idempotent, trim_idempotent.
Qed.

(** A NO-BREAK SPACE at either end is trimmed like any other white space. *)
Lemma trim_no_break_space s :
  trim (String nbsp "" +:+ s +:+ String nbsp "") = trim s.
Proof. by apply trim_padded. Qed.

End JSStringPadding.

(** ** Keys *)

Section Keys.
Import JSString JSStringFacts JSStringPadding.

Lemma forward_key_padded a s b :
  isBlank a = true → isBlank b = true →
  toUpperCase (trim (a +:+ s +:+ b)) = toUpperCase (trim s).
Proof. intros Ha Hb. by rewrite trim_padded. Qed.

Lemma reverse_key_padded a s b :
  isBlank a = true → isBlank b = true →
  trim (replace "OMIM:" "" (a +:+ s +:+ b)) = trim (replace "OMIM:" "" s).
Proof.
  intros Ha Hb.
  rewrite replace_blank_prefix, replace_blank_suffix by done.
  by apply trim_padded.
Qed.

Lemma forward_key_case_variant k s :
  case_variant k s = true →
  toUpperCase (trim s) = toUpperCase (trim k).
Proof.
  intros H. rewrite !toUpperCase_trim.
  by rewrite (case_variant_toUpperCase _ _ H).
Qed.

End Keys.

(** ** Loading, in full *)

(** X1.  [loadMappings] always completes normally; afterwards the mapper
    holds both fetched documents when both requests and both parses
    succeeded, and two empty tables otherwise.  Nothing of the tables it
    held before survives, and no half-loaded state is left behind. *)
Theorem loadMappings_all_or_nothing fetch this :
  loadMappings fetch this =
    (Normal (),
     match fetched fetch "./data/monarch-omim.json",
           fetched fetch "./data/omim-monarch.json" with
     | Normal m, Normal o => {| monarchMappings := m; omimMappings := o |}
     | _, _ => constructor
     end).
Proof.
  destruct (fetched fetch "./data/monarch-omim.json") as [m|e1] eqn:E1;
    destruct (fetched fetch "./data/omim-monarch.json") as [o|e2] eqn:E2.
  - by apply loadMappings_success.
  - apply loadMappings_fallback. rewrite E1, E2. done.
  - apply loadMappings_fallback. rewrite E1. done.
  - apply loadMappings_fallback. rewrite E1. done.
Qed.

(** X10.  After a load in which both documents arrived and parsed to JSON
    objects [m] and [o], a forward lookup of a non-empty ASCII string
    answers from the forward document [m] alone: the entry stored under the
    trimmed, upper-cased identifier if it is truthy, [null] otherwise. *)
Theorem lookup_after_load fetch (m o : gmap string json) s :
  fetched fetch "./data/monarch-omim.json" = Normal m →
  fetched fetch "./data/omim-monarch.json" = Normal o →
  s ≠ "" → JSString.isAscii s = true →
  returned (getMonarchToOmim (VStr s) (loaded fetch)) =
    Normal (match m !! JSString.toUpperCase (JSString.trim s) with
            | Some j => or_null (VJson j)
            | None => VNull
            end).
Proof.
  intros Hm Ho Hs _. unfold loaded.
  rewrite (loadMappings_success fetch constructor m o Hm Ho).
  rewrite getMonarchToOmim_key by done. unfold Get, receiver. simpl.
  destruct (m !! _); [done|].
  by rewrite Object_prototype_toUpperCase.
Qed.

Lemma lookup_after_load_witness :
  fetched online "./data/monarch-omim.json" = Normal sample_forward ∧
  fetched online "./data/omim-monarch.json" = Normal sample_reverse ∧
  returned (getMonarchToOmim (VStr "mondo:0007739") (loaded online))
    = Normal (VJson (forward_record "154700" "Marfan syndrome")).
Proof.
  split; [reflexivity|]. split; [reflexivity|].
  apply (lookup_after_load online sample_forward sample_reverse
           "mondo:0007739");
    [reflexivity|reflexivity|discriminate|reflexivity].
Defined.

(** ** Arguments that are not strings *)



(** ** The forward lookup is a lookup of own entries *)

(** X3.  On a non-empty ASCII string [getMonarchToOmim] reads the forward
    table at the trimmed, upper-cased identifier and nothing else: it
    returns the entry stored there if that entry is truthy, and [null] if
    there is none or it is falsy.  No inherited property is ever returned. *)
Theorem getMonarchToOmim_own_entry this s :
  s ≠ "" → JSString.isAscii s = true →
  getMonarchToOmim (VStr s) this =
    (Normal (match monarchMappings this
                   !! JSString.toUpperCase (JSString.trim s) with
             | Some j => or_null (VJson j)
             | None => VNull
             end), this).
Proof.
  intros Hs _. rewrite getMonarchToOmim_key by done. unfold Get.
  destruct (monarchMappings this !! _); [done|].
  by rewrite Object_prototype_toUpperCase.
Qed.

Lemma getMonarchToOmim_own_entry_witness :
  getMonarchToOmim (VStr "constructor") sample = (Normal VNull, sample) ∧
  getMonarchToOmim (VStr " mondo:0007739 ") sample
    = (Normal (VJson (forward_record "154700" "Marfan syndrome")), sample).
Proof.
  split.
  - apply (getMonarchToOmim_own_entry sample "constructor");
      [discriminate|reflexivity].
  - apply (getMonarchToOmim_own_entry sample " mondo:0007739 ");
      [discriminate|reflexivity].
Defined.

(** ** The reverse lookup on a key the table does not own *)

(** X4.  When the reverse table has no own entry under the key of the
    lookup, [getOmimToMonarch] returns the member that a plain object
    inherits under that key, and [null] if there is none; [getOmimName]
    returns the name of that function, [undefined] for [__proto__], and
    [null] if there is none.  The result is [null] exactly when the key is
    none of the twelve inherited names. *)
Theorem reverse_lookup_of_absent_key this s :
  let key := JSString.trim (JSString.replace "OMIM:" "" s) in
  omimMappings this !! key = None →
  getOmimToMonarch (VStr s) this
    = (Normal (default VNull (Object_prototype !! key)), this) ∧
  getOmimName (VStr s) this
    = (Normal match Object_prototype !! key with
              | Some (VFun name) => VStr name
              | Some _ => VUndefined
              | None => VNull
              end, this) ∧
  (returned (getOmimToMonarch (VStr s) this) = Normal VNull
   ↔ key ∉ inherited_names).
Proof.
  intros key Hmiss.
  assert (getOmimToMonarch (VStr s) this
            = (Normal (default VNull (Object_prototype !! key)), this)) as Hget.
  { destruct (Object_prototype !! key) as [v|] eqn:Hv.
    - assert (s ≠ "") as Hs by (intros ->; done).
      rewrite getOmimToMonarch_key by done. fold key.
      rewrite (Get_inherited _ _ v) by done.
      by destruct (Object_prototype_values _ _ Hv) as [->|[[_ ->]|[_ ->]]].
    - by apply getOmimToMonarch_miss. }
  split; [done|]. split.
  - unfold getOmimName, mbind, method_bind. rewrite Hget.
    destruct (Object_prototype !! key) as [v|] eqn:Hv; [|done].
    by destruct (Object_prototype_values _ _ Hv) as [->|[[_ ->]|[_ ->]]].
  - rewrite Hget, <-Object_prototype_names. unfold returned. simpl.
    destruct (Object_prototype !! key) as [v|] eqn:Hv.
    + split.
      * intros [= ->].
        by destruct (Object_prototype_values _ _ Hv) as [?|[[_ ?]|[_ ?]]].
      * intros []. by eexists.
    + split; [|done]. by intros _ [v Hv'].
Qed.

Lemma reverse_lookup_of_absent_key_witness :
  omimMappings sample !! "valueOf" = None ∧
  getOmimToMonarch (VStr "OMIM:valueOf ") sample
    = (Normal (VFun "valueOf"), sample) ∧
  getOmimName (VStr "__proto__") sample = (Normal VUndefined, sample) ∧
  getOmimToMonarch (VStr "999999") sample = (Normal VNull, sample).
Proof.
  split; [reflexivity|]. split; [|split].
  - apply (reverse_lookup_of_absent_key sample "OMIM:valueOf "). reflexivity.
  - apply (reverse_lookup_of_absent_key sample "__proto__"). reflexivity.
  - apply (reverse_lookup_of_absent_key sample "999999"). reflexivity.
Defined.

(** ** White space around an identifier *)

(** X5.  White space before and after a non-empty identifier is ignored by
    all four lookups. *)
Theorem surrounding_white_space_ignored this a s b :
  JSString.isBlank a = true → JSString.isBlank b = true → s ≠ "" →
  Forall (λ op : value → method value,
            op (VStr (a +:+ s +:+ b)) this = op (VStr s) this)
    [getMonarchToOmim; getOmimToMonarch; getDiseaseName; getOmimName].
Proof.
  intros Ha Hb Hs.
  pose proof (JSStringPadding.append_nonempty a s b Hs) as Hne.
  assert (getMonarchToOmim (VStr (a +:+ s +:+ b)) this
            = getMonarchToOmim (VStr s) this) as Hf.
  { rewrite !getMonarchToOmim_key by done.
    by rewrite forward_key_padded. }
  assert (getOmimToMonarch (VStr (a +:+ s +:+ b)) this
            = getOmimToMonarch (VStr s) this) as Hr.
  { rewrite !getOmimToMonarch_key by done.
    by rewrite reverse_key_padded. }
  repeat constructor; try done.
  - unfold getDiseaseName, mbind, method_bind. by rewrite Hf.
  - unfold getOmimName, mbind, method_bind. by rewrite Hr.
Qed.

Lemma surrounding_white_space_ignored_witness :
  JSString.isBlank "  " = true ∧
  getOmimToMonarch (VStr ("  " +:+ "OMIM:154700" +:+ " ")) sample
    = getOmimToMonarch (VStr "OMIM:154700") sample ∧
  returned (getOmimToMonarch (VStr "OMIM:154700") sample)
    = Normal (VJson (reverse_record "MONDO:0007739" "Marfan syndrome")).
Proof.
  split; [reflexivity|]. split; [|reflexivity].
  pose proof (surrounding_white_space_ignored sample "  " "OMIM:154700" " ")
    as H.
  apply Forall_cons in H as [_ H]; [|reflexivity|reflexivity|discriminate].
  by apply Forall_cons in H as [H _].
Defined.

(** ** Reaching an entry *)

(** X6.  Every truthy entry of the reverse table stored under a key without
    white space at either end is returned by [getOmimToMonarch] for that key
    with ["OMIM:"] in front, also when the key itself contains ["OMIM:"]
    or is empty. *)
Theorem prefixed_lookup_reaches_entry this e j :
  JSString.trim e = e →
  omimMappings this !! e = Some j →
  ToBoolean (VJson j) = true →
  getOmimToMonarch (VStr ("OMIM:" +:+ e)) this = (Normal (VJson j), this).
Proof.
  intros Htrim Hj Hb. rewrite getOmimToMonarch_key by done.
  rewrite JSStringFacts.replace_prefix. change ("" +:+ e) with e.
  by rewrite Htrim, (Get_own _ _ _ Hj), or_null_truthy.
Qed.

Lemma prefixed_lookup_reaches_entry_witness :
  JSString.trim "OMIM:154700" = "OMIM:154700" ∧
  getOmimToMonarch (VStr "OMIM:OMIM:154700") prefixed_sample
    = (Normal (VJson (reverse_record "MONDO:0007739" "Marfan syndrome")),
       prefixed_sample).
Proof.
  split; [reflexivity|].
  apply (prefixed_lookup_reaches_entry prefixed_sample "OMIM:154700");
    reflexivity.
Defined.

(** X7.  A truthy entry of the forward table stored under a non-empty key
    that is trimmed and in upper case is returned by [getMonarchToOmim] for
    every ASCII case variant of the key, with or without white space around
    it; [getDiseaseName] then returns the [name] of a forward record. *)
Theorem forward_round_trip this a s b k j :
  JSString.isBlank a = true → JSString.isBlank b = true →
  JSString.isAscii s = true →
  JSString.case_variant k s = true →
  JSString.toUpperCase (JSString.trim k) = k → k ≠ "" →
  monarchMappings this !! k = Some j →
  ToBoolean (VJson j) = true →
  getMonarchToOmim (VStr (a +:+ s +:+ b)) this = (Normal (VJson j), this) ∧
  (∀ e n, j = forward_record e n →
          getDiseaseName (VStr (a +:+ s +:+ b)) this = (Normal (VStr n), this)).
Proof.
  intros Ha Hb _ Hks Hk Hne Hj Htruthy.
  assert (s ≠ "") as Hs
    by (intros Hs; by apply (JSStringFacts.case_variant_empty _ _ Hks) in Hs).
  assert (getMonarchToOmim (VStr (a +:+ s +:+ b)) this
            = (Normal (VJson j), this)) as Hget.
  { rewrite getMonarchToOmim_key
      by (by apply JSStringPadding.append_nonempty).
    rewrite forward_key_padded, (forward_key_case_variant k s), Hk by done.
    by rewrite (Get_own _ _ _ Hj), or_null_truthy. }
  split; [done|]. intros e n ->.
  unfold getDiseaseName, mbind, method_bind. rewrite Hget.
  unfold forward_record. cbn [ToBoolean get_name mret method_ret].
  by rewrite name_of_forward_record.
Qed.

Lemma forward_round_trip_witness :
  JSString.case_variant "MONDO:0007739" "Mondo:0007739" = true ∧
  getMonarchToOmim (VStr (" " +:+ "Mondo:0007739" +:+ "  ")) sample
    = (Normal (VJson (forward_record "154700" "Marfan syndrome")), sample) ∧
  getDiseaseName (VStr (" " +:+ "Mondo:0007739" +:+ "  ")) sample
    = (Normal (VStr "Marfan syndrome"), sample).
Proof.
  split; [reflexivity|].
  destruct (forward_round_trip sample " " "Mondo:0007739" "  " "MONDO:0007739"
              (forward_record "154700" "Marfan syndrome")) as [Hget Hname];
    [reflexivity|reflexivity|reflexivity|reflexivity|reflexivity
    |discriminate|reflexivity|reflexivity|].
  split; [exact Hget|]. by apply (Hname "154700" "Marfan syndrome").
Defined.

(** ** Entries no lookup can reach *)

(** X8.  An entry of the forward table stored under a key that is not
    trimmed and in upper case, and an entry of the reverse table stored
    under a key with white space at either end, are never read: without the
    entry, every lookup in that direction returns what it returned with it. *)
Theorem unreachable_entries this k :
  (JSString.toUpperCase (JSString.trim k) ≠ k →
   ∀ id,
     returned (getMonarchToOmim id
                 {| monarchMappings := delete k (monarchMappings this);
                    omimMappings := omimMappings this |})
     = returned (getMonarchToOmim id this)) ∧
  (JSString.trim k ≠ k →
   ∀ id,
     returned (getOmimToMonarch id
                 {| monarchMappings := monarchMappings this;
                    omimMappings := delete k (omimMappings this) |})
     = returned (getOmimToMonarch id this)).
Proof.
  split; intros Hk id.
  - destruct (ToBoolean id) eqn:Hb;
      [|by rewrite !getMonarchToOmim_falsy].
    destruct id as [|[| | |s| |]| |];
      try (by rewrite !getMonarchToOmim_not_string).
    assert (s ≠ "") as Hs by (intros ->; done).
    rewrite !getMonarchToOmim_key by done. unfold Get, returned. simpl.
    rewrite lookup_delete_ne; [done|].
    intros ->. by rewrite JSStringPadding.forward_key_idempotent in Hk.
  - destruct (ToBoolean id) eqn:Hb;
      [|by rewrite !getOmimToMonarch_falsy].
    destruct id as [|[| | |s| |]| |];
      try (by rewrite !getOmimToMonarch_not_string).
    assert (s ≠ "") as Hs by (intros ->; done).
    rewrite !getOmimToMonarch_key by done. unfold Get, returned. simpl.
    rewrite lookup_delete_ne; [done|].
    intros ->. by rewrite JSStringPadding.trim_idempotent in Hk.
Qed.

Lemma unreachable_entries_witness :
  JSString.toUpperCase (JSString.trim "mondo:0007739") ≠ "mondo:0007739" ∧
  monarchMappings lowercase_key_sample !! "mondo:0007739"
    = Some (forward_record "154700" "Marfan syndrome") ∧
  returned (getMonarchToOmim (VStr "mondo:0007739") lowercase_key_sample)
    = Normal VNull.
Proof.
  split; [discriminate|]. split; [reflexivity|].
  destruct (unreachable_entries lowercase_key_sample "mondo:0007739")
    as [Hforward _].
  rewrite <-(Hforward ltac:(discriminate) (VStr "mondo:0007739")).
  reflexivity.
Defined.

(** ** The name of an entry *)

(** X9.  On a hit, a name accessor returns the entry's own [name] property,
    and [undefined] when the entry is an object without one or is not an
    object at all; it does not throw, and it does not return [null].  (The
    key of the forward lookup is the one named here for ASCII arguments.) *)
Theorem accessor_on_hit this s j :
  s ≠ "" → ToBoolean (VJson j) = true →
  let name_of :=
    match j with
    | JObj props => default VUndefined (VJson <$> props !! "name")
    | _ => VUndefined
    end in
  (JSString.isAscii s = true →
   monarchMappings this !! JSString.toUpperCase (JSString.trim s) = Some j →
   getDiseaseName (VStr s) this = (Normal name_of, this)) ∧
  (omimMappings this !! JSString.trim (JSString.replace "OMIM:" "" s) = Some j →
   getOmimName (VStr s) this = (Normal name_of, this)).
Proof.
  intros Hs Hb name_of.
  assert (get_name (VJson j) this = (Normal name_of, this)) as Hname.
  { subst name_of. destruct j as [| | | | |props]; try done.
    cbn [get_name mret method_ret]. unfold Get.
    destruct (props !! "name"); [done|]. by rewrite Object_prototype_name. }
  split; [intros _ Hj|intros Hj].
  - unfold getDiseaseName, mbind, method_bind.
    rewrite getMonarchToOmim_key, (Get_own _ _ _ Hj), or_null_truthy by done.
    by rewrite Hb.
  - unfold getOmimName, mbind, method_bind.
    rewrite getOmimToMonarch_key, (Get_own _ _ _ Hj), or_null_truthy by done.
    by rewrite Hb.
Qed.

Lemma accessor_on_hit_witness :
  getDiseaseName (VStr "MONDO:0007739") nameless_sample
    = (Normal VUndefined, nameless_sample) ∧
  getOmimName (VStr "OMIM:154700") nameless_sample
    = (Normal VUndefined, nameless_sample) ∧
  getOmimName (VStr "OMIM:154700") sample
    = (Normal (VStr "Marfan syndrome"), sample).
Proof.
  destruct (accessor_on_hit nameless_sample "MONDO:0007739"
              (JObj {[ "externalId" := JStr "154700" ]})) as [H1 _];
    [discriminate|reflexivity|].
  destruct (accessor_on_hit nameless_sample "OMIM:154700"
              (JStr "MONDO:0007739")) as [_ H2];
    [discriminate|reflexivity|].
  destruct (accessor_on_hit sample "OMIM:154700"
              (reverse_record "MONDO:0007739" "Marfan syndrome")) as [_ H3];
    [discriminate|reflexivity|].
  split; [|split].
  - apply H1; reflexivity.
  - apply H2. reflexivity.
  - apply H3. reflexivity.
Defined.
